(** * SlowFS: the device context of the I/O scheduler

    A shallow embedding of [slowfs/scheduler/devicecontext.go],
    [slowfs/scheduler/request.go] and of the file operations [Read] and
    [Write] of [slowfs/fuselayer/fuselayer.go], together with the properties
    of the scheduler that the specification states about them.

    Conventions.
    - Go's [int64] and [uint64] values are integers of [Z]; every arithmetic
      operation of the source is followed by its wrap-around ([wrap64],
      [wrapU64]).
    - A [time.Time] is the number of nanoseconds on one time line, a
      [time.Duration] is an [int64] count of nanoseconds; [Time.Sub]
      saturates at the ends of the [Duration] range as Go's does.
    - A Go method that dereferences a nil pointer panics: the functions of
      the device context run in the monad [M], which carries the lines
      handed to the logger and fails on a panic. *)

From Stdlib Require Import ZArith Lia.
From stdpp Require Import gmap strings list fin_maps sorting.

Local Open Scope Z_scope.

(** ** Machine integers *)

Module GoInt.

Definition minInt64 : Z := - 2 ^ 63.
Definition maxInt64 : Z := 2 ^ 63 - 1.

(** The values an [int64] holds. *)
Definition fits64 (z : Z) : Prop := minInt64 <= z <= maxInt64.

(** Two's complement wrap-around of a 64-bit signed result. *)
Definition wrap64 (z : Z) : Z := (z + 2 ^ 63) mod 2 ^ 64 - 2 ^ 63.

(** Wrap-around of a 64-bit unsigned result. *)
Definition wrapU64 (z : Z) : Z := z mod 2 ^ 64.

(** Clamping to the [int64] range. *)
Definition sat64 (z : Z) : Z := Z.max minInt64 (Z.min maxInt64 z).

End GoInt.

(** ** Package [time] *)

Module GoTime.
Import GoInt.

Definition Time : Type := Z.
Definition Duration : Type := Z.

Definition Nanosecond : Duration := 1.
Definition Millisecond : Duration := 1000000.
Definition Second : Duration := 1000000000.

(** [a.After(b)] *)
Definition After (a b : Time) : bool := b <? a.

(** [t.Add(d)] *)
Definition Add (t : Time) (d : Duration) : Time := t + d.

(** [t.Sub(u)]: the difference, or the largest (smallest) [Duration]
    when the difference does not fit. *)
Definition Sub (t u : Time) : Duration := sat64 (t - u).

(** [time.Since(t)], with the reading of the clock given. *)
Definition Since (now t : Time) : Duration := Sub now t.

(** [d1 + d2], [d1 - d2] and [d * k] on [Duration]. *)
Definition dadd (d1 d2 : Duration) : Duration := wrap64 (d1 + d2).
Definition dsub (d1 d2 : Duration) : Duration := wrap64 (d1 - d2).
Definition dmul (d k : Duration) : Duration := wrap64 (d * k).

End GoTime.

(** ** Package [units] *)

Module units.
Import GoInt.

(** Modelled from the spec: the declaration of [units.NumBytes] is not
    among the sources; section 3 makes a byte count a 64-bit integer
    that is non-negative when well formed. *)
Definition NumBytes : Type := Z.

(** [a + b] and [a - b] on [NumBytes]. *)
Definition badd (a b : NumBytes) : NumBytes := wrap64 (a + b).
Definition bsub (a b : NumBytes) : NumBytes := wrap64 (a - b).

End units.

(** ** Package [slowfs]: the device configuration *)

Module slowfs.
Import GoInt GoTime units.

(** Modelled from the spec: the strategies of section 3
    ([fsyncStrategy] in none, dumb, writeback; [writeStrategy] in fast,
    simulate), under the names the device context uses for them. *)
Inductive FsyncStrategy := NoFsync | DumbFsync | WriteBackCachedFsync.
Inductive WriteStrategy := FastWrite | SimulateWrite.

(** Modelled from the spec: the options of a [DeviceConfig] (section 3),
    under the field names [main] and the device context use. *)
Record DeviceConfig := {
  Name : string;
  SeekWindow : NumBytes;
  SeekTime : Duration;
  ReadBytesPerSecond : NumBytes;
  WriteBytesPerSecond : NumBytes;
  AllocateBytesPerSecond : NumBytes;
  RequestReorderMaxDelay : Duration;
  MetadataOpTime : Duration;
  FsyncStrategy_ : FsyncStrategy;
  WriteStrategy_ : WriteStrategy
}.

(** Rounding of the quotient [num / den] to the nearest integer, ties to
    the even one (section 4.1); [den] is positive. *)
Definition roundHalfEven (num den : Z) : Z :=
  let q := num / den in
  let r := num mod den in
  if 2 * r <? den then q
  else if den <? 2 * r then q + 1
  else if Z.even q then q else q + 1.

(** Modelled from the spec: the time [numBytes] take at [bytesPerSecond],
    that is [size / bytesPerSecond] seconds (section 4.3) as an integer
    count of nanoseconds, rounded half to even (section 4.1). *)
Definition computeTimeFromThroughput (numBytes bytesPerSecond : NumBytes)
  : Duration :=
  roundHalfEven (numBytes * Second) bytesPerSecond.

(** Modelled from the spec: [ReadTime], [WriteTime] and [AllocateTime] of
    [DeviceConfig], whose code is not among the sources. *)
Definition ReadTime (d : DeviceConfig) (numBytes : NumBytes) : Duration :=
  computeTimeFromThroughput numBytes (ReadBytesPerSecond d).
Definition WriteTime (d : DeviceConfig) (numBytes : NumBytes) : Duration :=
  computeTimeFromThroughput numBytes (WriteBytesPerSecond d).
Definition AllocateTime (d : DeviceConfig) (numBytes : NumBytes) : Duration :=
  computeTimeFromThroughput numBytes (AllocateBytesPerSecond d).


End slowfs.

(** ** Package [scheduler] *)

Module scheduler.
Import GoInt GoTime units slowfs.

(** *** request.go *)

(** [type RequestType int64] and its enumeration. *)
Definition RequestType : Type := Z.

Definition ReadRequest : RequestType := 0.
Definition WriteRequest : RequestType := 1.
Definition OpenRequest : RequestType := 2.
Definition CloseRequest : RequestType := 3.
Definition FsyncRequest : RequestType := 4.
Definition AllocateRequest : RequestType := 5.
Definition MetadataRequest : RequestType := 6.

(** [RequestType.String]. *)
Definition RequestType_String (rt : RequestType) : string :=
  if rt =? ReadRequest then "READ"
  else if rt =? WriteRequest then "WRITE"
  else if rt =? OpenRequest then "OPEN"
  else if rt =? CloseRequest then "CLOSE"
  else if rt =? FsyncRequest then "FSYNC"
  else if rt =? AllocateRequest then "ALLOCATE"
  else if rt =? MetadataRequest then "METADATA"
  else "UNKNOWN".

(** [Request]; its field [Type] is [Type_] here. *)
Record Request := {
  Type_ : RequestType;
  Timestamp : Time;
  Path : string;
  Start : NumBytes;
  Size : NumBytes
}.

(** *** The logger and panics *)

(** A line handed to a logger: the format and its arguments. The first
    two are the lines of the device context, the last two those of the
    file operations of the FUSE layer. *)
Inductive LogLine :=
| UnknownRequestType (req : Request)
| IOSpeed (readBytes reads writeBytes writes : Z) (window : Duration)
| ReadFailed (file : string) (offset size : Z) (status : Z)
| WriteFailed (file : string) (offset size : Z) (status : Z).

(** A computation that panics ([None]) or returns a value and the lines
    it logged, oldest first. *)
Definition M (A : Type) : Type := option (A * list LogLine).

Definition ret {A} (a : A) : M A := Some (a, []).

Definition bind {A B} (m : M A) (f : A → M B) : M B :=
  match m with
  | None => None
  | Some (a, l1) =>
      match f a with
      | None => None
      | Some (b, l2) => Some (b, l1 ++ l2)
      end
  end.

Definition Printf (line : LogLine) : M unit := Some (tt, [line]).

Definition panic {A} : M A := None.

Notation "'let!' x ':=' m 'in' k" := (bind m (λ x, k))
  (at level 10, x pattern, m at level 100, k at level 200).

(** The value a computation returns, if it returns. *)
Definition result {A} (m : M A) : option A := fst <$> m.

(** *** The write-back cache *)

(** Modelled from the spec: [writeBackCache] and its methods, whose code
    is not among the sources, after sections 3 and 4.4: a mapping from
    paths to dirty bytes. *)
Abbreviation WriteBackCache := (gmap string NumBytes).

(** Modelled from the spec: [newWriteBackCache] gives the empty mapping. *)
Definition newWriteBackCache (config : DeviceConfig) : WriteBackCache := ∅.

(** Modelled from the spec: [unwrittenBytes(path)], the current dirty
    count; a path without an entry has none. *)
Definition getUnwrittenBytes (wbc : WriteBackCache) (path : string)
  : NumBytes :=
  default 0 (wbc !! path).

(** Modelled from the spec: [write(path, n)] is
    [dirtyBytes[path] += n]. *)
Definition write (wbc : WriteBackCache) (path : string) (n : NumBytes)
  : WriteBackCache :=
  <[path := getUnwrittenBytes wbc path + n]> wbc.

(** Modelled from the spec: [writeBackFile(path)] sets the count to
    zero. *)
Definition writeBackFile (wbc : WriteBackCache) (path : string)
  : WriteBackCache :=
  <[path := 0]> wbc.

(** Modelled from the spec: [close(path)] removes the entry
    unconditionally. *)
Definition close (wbc : WriteBackCache) (path : string) : WriteBackCache :=
  delete path wbc.

(** The order of paths that [writeBack] iterates in. *)
Definition path_le (a b : string) : Prop := String.leb a b = true.

#[global] Instance path_le_dec : RelDecision path_le.
Proof. intros a b. unfold path_le. apply _. Defined.

Definition sortedPaths (wbc : WriteBackCache) : list string :=
  merge_sort path_le (map_to_list wbc).*1.

(** Modelled from the spec: [drainable = writeBytesPerSecond × budget],
    the budget being a count of nanoseconds; a fraction of a byte is
    not drained. *)
Definition drainableBytes (config : DeviceConfig) (budget : Duration)
  : NumBytes :=
  WriteBytesPerSecond config * budget / Second.

(** One path of [writeBack]: it receives
    [min(dirtyBytes[path], remaining)]. *)
Definition drainPath (st : WriteBackCache * NumBytes) (path : string)
  : WriteBackCache * NumBytes :=
  let n := Z.min (getUnwrittenBytes st.1 path) st.2 in
  (<[path := getUnwrittenBytes st.1 path - n]> st.1, st.2 - n).

(** Modelled from the spec: [writeBack(budget)] distributes the
    drainable bytes across the paths in sorted order; what is left of
    the budget is discarded. *)
Definition writeBack (config : DeviceConfig) (wbc : WriteBackCache)
    (budget : Duration) : WriteBackCache :=
  (foldl drainPath (wbc, drainableBytes config budget) (sortedPaths wbc)).1.

(** *** devicecontext.go *)

Record deviceContext := {
  deviceConfig : DeviceConfig;
  firstUnseenByte : NumBytes;
  lastAccessedFile : string;
  busyUntil : Time;
  verboseLog : bool;
  windowReadBytes : Z;
  windowWriteBytes : Z;
  windowReads : Z;
  windowWrites : Z;
  lastLogTime : Time;
  (** [None] is the nil pointer. *)
  writeBackCache : option WriteBackCache
}.

(** The zero [time.Time], which the fields a struct literal leaves out
    hold; it is the origin of the time line. *)
Definition zeroTime : Time := 0.

(** [newDeviceContext], at the reading [now] of the clock. *)
Definition newDeviceContext (now : Time) (config : DeviceConfig)
  : deviceContext :=
  let writeBackCache :=
    match FsyncStrategy_ config with
    | WriteBackCachedFsync => Some (newWriteBackCache config)
    | _ => None
    end in
  {| deviceConfig := config;
     firstUnseenByte := 0;
     lastAccessedFile := "";
     busyUntil := zeroTime;
     verboseLog := false;
     windowReadBytes := 0;
     windowWriteBytes := 0;
     windowReads := 0;
     windowWrites := 0;
     lastLogTime := now;
     writeBackCache := writeBackCache |}.

(** [latestTime] *)
Definition latestTime (a b : Time) : Time :=
  if After a b then a else b.

(** [computeSeekTime] *)
Definition computeSeekTime (dc : deviceContext) (req : Request) : Duration :=
  if negb (String.eqb (lastAccessedFile dc) (Path req))
     || (Start req <? firstUnseenByte dc)
     || (SeekWindow (deviceConfig dc)
           <=? bsub (Start req) (firstUnseenByte dc))
  then SeekTime (deviceConfig dc)
  else 0.

(** [dc.writeBackCache.getUnwrittenBytes(req.Path)] of [computeTime]: the
    method reads the mapping of its receiver, which panics on nil. *)
Definition unwrittenBytesOf (dc : deviceContext) (path : string)
  : M NumBytes :=
  match writeBackCache dc with
  | Some wbc => ret (getUnwrittenBytes wbc path)
  | None => panic
  end.

(** The [switch] of [computeTime]: the value of [requestDuration] after
    it. *)
Definition requestDuration (dc : deviceContext) (req : Request)
  : M Duration :=
  let config := deviceConfig dc in
  let ty := Type_ req in
  if (ty =? MetadataRequest) || (ty =? CloseRequest) then
    ret (MetadataOpTime config)
  else if ty =? AllocateRequest then
    ret (dadd (computeSeekTime dc req) (AllocateTime config (Size req)))
  else if ty =? ReadRequest then
    ret (dadd (computeSeekTime dc req) (ReadTime config (Size req)))
  else if ty =? WriteRequest then
    match WriteStrategy_ config with
    | FastWrite => ret 0
    | SimulateWrite =>
        ret (dadd (computeSeekTime dc req) (WriteTime config (Size req)))
    end
  else if ty =? FsyncRequest then
    match FsyncStrategy_ config with
    | DumbFsync => ret (dmul (SeekTime config) 10)
    | WriteBackCachedFsync =>
        let! unwritten := unwrittenBytesOf dc (Path req) in
        ret (dadd (SeekTime config) (WriteTime config unwritten))
    | NoFsync => ret 0
    end
  else
    let! _ := Printf (UnknownRequestType req) in
    ret 0.

(** [computeTime] *)
Definition computeTime (dc : deviceContext) (req : Request) : M Duration :=
  let! requestDuration := requestDuration dc req in
  ret (Sub (Add (latestTime (busyUntil dc) (Timestamp req)) requestDuration)
           (Timestamp req)).

(** Assignments to the fields of the device context. *)
Definition setWindow (dc : deviceContext)
    (readBytes writeBytes reads writes : Z) (logTime : Time)
  : deviceContext :=
  {| deviceConfig := deviceConfig dc;
     firstUnseenByte := firstUnseenByte dc;
     lastAccessedFile := lastAccessedFile dc;
     busyUntil := busyUntil dc;
     verboseLog := verboseLog dc;
     windowReadBytes := readBytes;
     windowWriteBytes := writeBytes;
     windowReads := reads;
     windowWrites := writes;
     lastLogTime := logTime;
     writeBackCache := writeBackCache dc |}.

Definition setWriteBackCache (dc : deviceContext) (wbc : WriteBackCache)
  : deviceContext :=
  {| deviceConfig := deviceConfig dc;
     firstUnseenByte := firstUnseenByte dc;
     lastAccessedFile := lastAccessedFile dc;
     busyUntil := busyUntil dc;
     verboseLog := verboseLog dc;
     windowReadBytes := windowReadBytes dc;
     windowWriteBytes := windowWriteBytes dc;
     windowReads := windowReads dc;
     windowWrites := windowWrites dc;
     lastLogTime := lastLogTime dc;
     writeBackCache := Some wbc |}.

Definition setBusyUntil (dc : deviceContext) (t : Time) : deviceContext :=
  {| deviceConfig := deviceConfig dc;
     firstUnseenByte := firstUnseenByte dc;
     lastAccessedFile := lastAccessedFile dc;
     busyUntil := t;
     verboseLog := verboseLog dc;
     windowReadBytes := windowReadBytes dc;
     windowWriteBytes := windowWriteBytes dc;
     windowReads := windowReads dc;
     windowWrites := windowWrites dc;
     lastLogTime := lastLogTime dc;
     writeBackCache := writeBackCache dc |}.

Definition setSequentiality (dc : deviceContext) (file : string)
    (unseen : NumBytes) : deviceContext :=
  {| deviceConfig := deviceConfig dc;
     firstUnseenByte := unseen;
     lastAccessedFile := file;
     busyUntil := busyUntil dc;
     verboseLog := verboseLog dc;
     windowReadBytes := windowReadBytes dc;
     windowWriteBytes := windowWriteBytes dc;
     windowReads := windowReads dc;
     windowWrites := windowWrites dc;
     lastLogTime := lastLogTime dc;
     writeBackCache := writeBackCache dc |}.

(** [if dc.writeBackCache != nil { dc.writeBackCache.f(...) }] *)
Definition onWriteBackCache (dc : deviceContext)
    (f : WriteBackCache → WriteBackCache) : deviceContext :=
  match writeBackCache dc with
  | Some wbc => setWriteBackCache dc (f wbc)
  | None => dc
  end.

(** [execute], "Update statistics for current window". *)
Definition countRequest (dc : deviceContext) (req : Request)
  : deviceContext :=
  if Type_ req =? ReadRequest then
    setWindow dc (wrapU64 (windowReadBytes dc + Size req))
      (windowWriteBytes dc) (wrapU64 (windowReads dc + 1))
      (windowWrites dc) (lastLogTime dc)
  else if Type_ req =? WriteRequest then
    setWindow dc (windowReadBytes dc)
      (wrapU64 (windowWriteBytes dc + Size req)) (windowReads dc)
      (wrapU64 (windowWrites dc + 1)) (lastLogTime dc)
  else dc.

(** [execute], "Log statistics every 30 seconds and reset window"; [now]
    is the reading of the clock, one for the calls of [time.Since] and
    [time.Now] of the block. The line carries the counters and the
    length of the window that the speeds are computed from. *)
Definition logStatistics (now : Time) (dc : deviceContext)
  : M deviceContext :=
  if 30 * Second <? Since now (lastLogTime dc) then
    let! _ :=
      if (0 <? windowReads dc) || (0 <? windowWrites dc) then
        Printf (IOSpeed (windowReadBytes dc) (windowReads dc)
                  (windowWriteBytes dc) (windowWrites dc)
                  (Since now (lastLogTime dc)))
      else ret tt in
    ret (setWindow dc 0 0 0 0 now)
  else ret dc.

(** [execute], "Devote spare time to writing back cache". *)
Definition writeBackSpareTime (dc : deviceContext) (spareTime : Duration)
  : deviceContext :=
  if 0 <? spareTime then
    onWriteBackCache dc (λ wbc, writeBack (deviceConfig dc) wbc spareTime)
  else dc.

(** [execute], the [switch] that ends it. *)
Definition applyRequest (dc : deviceContext) (req : Request)
  : M deviceContext :=
  let ty := Type_ req in
  if (ty =? MetadataRequest) || (ty =? AllocateRequest) then
    ret dc
  else if ty =? CloseRequest then
    let dc := onWriteBackCache dc (λ wbc, close wbc (Path req)) in
    if String.eqb (lastAccessedFile dc) (Path req) then
      ret (setSequentiality dc "" 0)
    else ret dc
  else if ty =? ReadRequest then
    ret (setSequentiality dc (Path req) (badd (Start req) (Size req)))
  else if ty =? WriteRequest then
    let dc :=
      match WriteStrategy_ (deviceConfig dc) with
      | FastWrite => dc
      | SimulateWrite =>
          setSequentiality dc (Path req) (badd (Start req) (Size req))
      end in
    ret (onWriteBackCache dc (λ wbc, write wbc (Path req) (Size req)))
  else if ty =? FsyncRequest then
    ret (onWriteBackCache dc (λ wbc, writeBackFile wbc (Path req)))
  else
    let! _ := Printf (UnknownRequestType req) in
    ret dc.

(** The device context as [computeTime] finds it inside [execute]: the
    statistics are updated and the spare time is spent. *)
Definition prepare (now : Time) (dc : deviceContext) (req : Request)
  : M deviceContext :=
  let spareTime := Sub (Timestamp req) (busyUntil dc) in
  let dc := countRequest dc req in
  let! dc := logStatistics now dc in
  ret (writeBackSpareTime dc spareTime).

(** [execute]; [now] is the reading of the clock. *)
Definition execute (now : Time) (dc : deviceContext) (req : Request)
  : M deviceContext :=
  let! dc := prepare now dc req in
  let! duration := computeTime dc req in
  let dc := setBusyUntil dc (Add (Timestamp req) duration) in
  applyRequest dc req.

(** Modelled from the spec: [Schedule] of the scheduler, whose code is
    not among the sources: under the lock, one [computeTime] and one
    [execute]; the caller gets the duration (sections 4.5 and 5). *)
Definition Schedule (now : Time) (dc : deviceContext) (req : Request)
  : M (Duration * deviceContext) :=
  let! duration := computeTime dc req in
  let! dc := execute now dc req in
  ret (duration, dc).

End scheduler.

(** ** Package [fuselayer]: the file operations [Read] and [Write] *)

Module fuselayer.
Import GoInt GoTime units slowfs scheduler.

(** [fuse.Status]; [fuse.OK] is zero, the other values are errno
    codes. *)
Definition Status : Type := Z.
Definition OK : Status := 0.
Definition EIO : Status := 5.

(** A [fuse.ReadResult] as [Read] uses it: what [Size()] returns and
    what [Bytes(buf)] returns. *)
Record ReadResult := {
  rrSize : Z;
  rrBytes : list Byte.byte * Status
}.

(** [fuse.ReadResultData] *)
Definition ReadResultData (buf : list Byte.byte) : ReadResult :=
  {| rrSize := Z.of_nat (length buf); rrBytes := (buf, OK) |}.

(** [slowFile], with the flag [sf.sfs.verboseLog]; the scheduler that
    [sf.sfs.scheduler] points to is passed to each operation. *)
Record slowFile := {
  path : string;
  sfsVerboseLog : bool
}.

(** What an operation leaves behind: the values it returns, the device
    context of the scheduler, and the argument of [time.Sleep] when it
    sleeps. *)
Record Returned (A : Type) := {
  value : A;
  status : Status;
  schedulerAfter : deviceContext;
  slept : option Duration
}.
Arguments value {A}.
Arguments status {A}.
Arguments schedulerAfter {A}.
Arguments slept {A}.

(** [slowFile.Read]. [destLen] is [len(dest)]; [start] is the first
    reading of the clock, [now] the one inside [Schedule], [wake] the
    one of [time.Since(start)]; [under] is what [sf.File.Read] returns.
    A nil result is [None]. *)
Definition Read (sf : slowFile) (sched : deviceContext)
    (destLen off : Z) (start now wake : Time)
    (under : ReadResult * Status) : M (Returned (option ReadResult)) :=
  let r := under.1 in
  let status := under.2 in
  if negb (status =? OK) then
    let! _ :=
      if sfsVerboseLog sf
      then Printf (ReadFailed (path sf) off destLen status)
      else ret tt in
    ret {| value := Some r; status := status;
           schedulerAfter := sched; slept := None |}
  else
    let buf := (rrBytes r).1 in
    let status := (rrBytes r).2 in
    if negb (status =? OK) then
      ret {| value := None; status := status;
             schedulerAfter := sched; slept := None |}
    else
      let r := ReadResultData buf in
      let! (opTime, sched) :=
        Schedule now sched
          {| Type_ := ReadRequest; Timestamp := start; Path := path sf;
             Start := off; Size := rrSize r |} in
      ret {| value := Some r; status := status; schedulerAfter := sched;
             slept := Some (dsub opTime (Since wake start)) |}.

(** [slowFile.Write]. [dataLen] is [len(data)]; [under] is what
    [sf.File.Write] returns, the bytes written and the status. *)
Definition Write (sf : slowFile) (sched : deviceContext)
    (dataLen off : Z) (start now wake : Time)
    (under : Z * Status) : M (Returned Z) :=
  let r := under.1 in
  let status := under.2 in
  if negb (status =? OK) then
    let! _ :=
      if sfsVerboseLog sf
      then Printf (WriteFailed (path sf) off dataLen status)
      else ret tt in
    ret {| value := r; status := status;
           schedulerAfter := sched; slept := None |}
  else
    let! (opTime, sched) :=
      Schedule now sched
        {| Type_ := WriteRequest; Timestamp := start; Path := path sf;
           Start := off; Size := r |} in
    ret {| value := r; status := status; schedulerAfter := sched;
           slept := Some (dsub opTime (Since wake start)) |}.

(** [slowFile.Release], which has no status to look at: the device
    context of the scheduler afterwards and the argument of
    [time.Sleep]. *)
Definition Release (sf : slowFile) (sched : deviceContext)
    (start now wake : Time) : M (deviceContext * Duration) :=
  let! (opTime, sched) :=
    Schedule now sched
      {| Type_ := CloseRequest; Timestamp := start; Path := path sf;
         Start := 0; Size := 0 |} in
  ret (sched, dsub opTime (Since wake start)).

(** [slowFile.Fsync]; [under] is what [sf.File.Fsync] returns. *)
Definition Fsync (sf : slowFile) (sched : deviceContext)
    (start now wake : Time) (under : Status) : M (Returned unit) :=
  let r := under in
  if negb (r =? OK) then
    ret {| value := tt; status := r;
           schedulerAfter := sched; slept := None |}
  else
    let! (opTime, sched) :=
      Schedule now sched
        {| Type_ := FsyncRequest; Timestamp := start; Path := path sf;
           Start := 0; Size := 0 |} in
    ret {| value := tt; status := r; schedulerAfter := sched;
           slept := Some (dsub opTime (Since wake start)) |}.

(** [slowFile.Truncate]; [under] is what [sf.File.Truncate] returns.
    The request names no file. [slowFile.Chown], [slowFile.Chmod] and
    [slowFile.Utimens] differ in the underlying call only. *)
Definition Truncate (sf : slowFile) (sched : deviceContext)
    (start now wake : Time) (under : Status) : M (Returned unit) :=
  let r := under in
  if negb (r =? OK) then
    ret {| value := tt; status := r;
           schedulerAfter := sched; slept := None |}
  else
    let! (opTime, sched) :=
      Schedule now sched
        {| Type_ := MetadataRequest; Timestamp := start; Path := "";
           Start := 0; Size := 0 |} in
    ret {| value := tt; status := r; schedulerAfter := sched;
           slept := Some (dsub opTime (Since wake start)) |}.


End fuselayer.

(** ** Package [main]: the device configurations by name *)

Module main.
Import slowfs.

(** The loop of [main] over the configurations of the configuration
    file: a name that the map has already is fatal ([inl], with the
    name that [log.Fatalf] prints), any other one is entered. *)
Fixpoint addConfigs (configs : gmap string DeviceConfig)
    (dcs : list DeviceConfig) : string + gmap string DeviceConfig :=
  match dcs with
  | [] => inr configs
  | dc :: dcs =>
      match configs !! Name dc with
      | Some _ => inl (Name dc)
      | None => addConfigs (<[Name dc := dc]> configs) dcs
      end
  end.

(** [config, ok := configs[*configName]], fatal when the name is
    unknown. *)
Definition selectConfig (configs : gmap string DeviceConfig)
    (configName : string) : string + DeviceConfig :=
  match configs !! configName with
  | Some config => inr config
  | None => inl configName
  end.

(** The configurations that [main] chooses from: the built-in one and,
    with a configuration file, those that it lists. *)
Definition loadConfigs (builtin : DeviceConfig)
    (configFile : option (list DeviceConfig))
  : string + gmap string DeviceConfig :=
  let configs := {[ Name builtin := builtin ]} in
  match configFile with
  | Some dcs => addConfigs configs dcs
  | None => inr configs
  end.

End main.

(** ** The words of the specification *)

Module spec.
Import GoTime units slowfs scheduler.

(** Section 4.3: [completion = max(busyUntil, req.timestamp) +
    requestDuration] and [returnedDelay = completion − req.timestamp],
    on integers without bound. *)
Definition completion (busyUntil timestamp : Time) (requestDuration : Z)
  : Z :=
  Z.max busyUntil timestamp + requestDuration.

Definition returnedDelay (busyUntil timestamp : Time) (requestDuration : Z)
  : Z :=
  completion busyUntil timestamp requestDuration - timestamp.

(** Section 4.3, [seekTime(req)]: the three conditions under which a
    request seeks. *)
Definition seeks (dc : deviceContext) (req : Request) : Prop :=
  Path req ≠ lastAccessedFile dc
  ∨ Start req < firstUnseenByte dc
  ∨ Start req - firstUnseenByte dc >= SeekWindow (deviceConfig dc).

#[global] Instance seeks_dec dc req : Decision (seeks dc req).
Proof. unfold seeks. apply _. Defined.

Definition seekTime (dc : deviceContext) (req : Request) : Z :=
  if decide (seeks dc req) then SeekTime (deviceConfig dc) else 0.

End spec.

(** ** States and requests that the properties speak of *)

Module props.
Import GoInt GoTime units slowfs scheduler.

(** The write-back cache is there when the strategy of [Fsync] needs
    it, as [newDeviceContext] leaves it. *)
Definition cacheAllocated (dc : deviceContext) : Prop :=
  FsyncStrategy_ (deviceConfig dc) = WriteBackCachedFsync →
  is_Some (writeBackCache dc).

(** The dirty bytes of a path, none without a cache. *)
Definition dirtyBytes (dc : deviceContext) (path : string) : NumBytes :=
  match writeBackCache dc with
  | Some wbc => getUnwrittenBytes wbc path
  | None => 0
  end.

(** No path has a negative count of dirty bytes (section 3). *)
Definition cacheNonNegative (dc : deviceContext) : Prop :=
  ∀ path, 0 <= dirtyBytes dc path.


(** The device context once the spare time before a request is spent on
    writing back the cache, the first step of [execute] that changes
    what the scheduling depends on. *)
Definition afterSpareTime (dc : deviceContext) (req : Request)
  : deviceContext :=
  writeBackSpareTime dc (Sub (Timestamp req) (busyUntil dc)).

(** Two device contexts that differ in the statistics window at most. *)
Record sameDevice (dc1 dc2 : deviceContext) : Prop := {
  same_deviceConfig : deviceConfig dc1 = deviceConfig dc2;
  same_firstUnseenByte : firstUnseenByte dc1 = firstUnseenByte dc2;
  same_lastAccessedFile : lastAccessedFile dc1 = lastAccessedFile dc2;
  same_busyUntil : busyUntil dc1 = busyUntil dc2;
  same_writeBackCache : writeBackCache dc1 = writeBackCache dc2
}.

(** The device contexts that a scheduler for [config] goes through:
    [newDeviceContext], then [execute] of requests whose size is not
    negative. *)
Inductive reachable (config : DeviceConfig) : deviceContext → Prop :=
| reachable_new now : reachable config (newDeviceContext now config)
| reachable_execute now dc req dc' log :
    reachable config dc →
    0 <= Size req →
    execute now dc req = Some (dc', log) →
    reachable config dc'.

(** The seek times that [computeTime] charges a run of READs of one
    file, each starting where the one before ended; a chunk is the
    reading of the clock, the timestamp and the size of a READ. [None]
    is a panic. *)
Fixpoint seeksOfReads (dc : deviceContext) (path : string)
    (start : NumBytes) (chunks : list (Time * Time * NumBytes))
  : option (list Duration) :=
  match chunks with
  | [] => Some []
  | (now, timestamp, size) :: chunks =>
      let req := {| Type_ := ReadRequest; Timestamp := timestamp;
                    Path := path; Start := start; Size := size |} in
      match result (execute now dc req) with
      | Some dc' =>
          cons (computeSeekTime dc req)
            <$> seeksOfReads dc' path (badd start size) chunks
      | None => None
      end
  end.

(** The bytes that a run of READs reads. *)
Definition totalSize (chunks : list (Time * Time * NumBytes)) : Z :=
  foldr (λ chunk total, chunk.2 + total) 0 chunks.

(** The statistics of the window. *)
Definition statistics (dc : deviceContext) : Z * Z * Z * Z * Time :=
  (windowReadBytes dc, windowWriteBytes dc, windowReads dc,
   windowWrites dc, lastLogTime dc).

(** A line of the statistics. *)
Definition isIOSpeed (line : LogLine) : bool :=
  match line with
  | IOSpeed _ _ _ _ _ => true
  | _ => false
  end.


(** The sequentiality state. *)
Definition sequentiality (dc : deviceContext) : string * NumBytes :=
  (lastAccessedFile dc, firstUnseenByte dc).

End props.

(** ** Sample configurations and requests *)

Module samples.
Import GoInt GoTime units slowfs scheduler.

Definition MiB : NumBytes := 1048576.

(** The configuration of the scenarios of section 8. *)
Definition config (fsync : FsyncStrategy) (write : WriteStrategy)
  : DeviceConfig :=
  {| Name := "scenario";
     SeekWindow := 4096;
     SeekTime := 5 * Millisecond;
     ReadBytesPerSecond := 10 * MiB;
     WriteBytesPerSecond := 10 * MiB;
     AllocateBytesPerSecond := 1000 * MiB;
     RequestReorderMaxDelay := 0;
     MetadataOpTime := 1 * Millisecond;
     FsyncStrategy_ := fsync;
     WriteStrategy_ := write |}.

Definition request (ty : RequestType) (path : string)
    (start size : NumBytes) (timestamp : Time) : Request :=
  {| Type_ := ty; Timestamp := timestamp; Path := path;
     Start := start; Size := size |}.

(** A fresh device. *)
Definition fresh (fsync : FsyncStrategy) (write : WriteStrategy)
  : deviceContext :=
  newDeviceContext 0 (config fsync write).

(** A device that is busy until [t], has last read ["/a"] up to [unseen]
    and holds [dirty] unwritten bytes of ["/a"] and of ["/b"]. *)
Definition busy (fsync : FsyncStrategy) (write : WriteStrategy)
    (t : Time) (unseen dirty : NumBytes) : deviceContext :=
  {| deviceConfig := config fsync write;
     firstUnseenByte := unseen;
     lastAccessedFile := "/a";
     busyUntil := t;
     verboseLog := false;
     windowReadBytes := 0;
     windowWriteBytes := 0;
     windowReads := 0;
     windowWrites := 0;
     lastLogTime := 0;
     writeBackCache := Some (<["/a" := dirty]> (<["/b" := dirty]> ∅)) |}.


End samples.

(** * Properties *)

Import GoInt GoTime units slowfs scheduler props.

(** ** Machine arithmetic *)

Section Arithmetic.

Lemma wrap64_fits z : fits64 z → wrap64 z = z.
Proof.
  unfold fits64, wrap64, minInt64, maxInt64. intros Hz.
  rewrite Z.mod_small; lia.
Qed.

Lemma sat64_fits z : fits64 z → sat64 z = z.
Proof. unfold fits64, sat64. lia. Qed.




Lemma latestTime_max a b : latestTime a b = Z.max a b.
Proof.
  unfold latestTime, After. destruct (Z.ltb_spec b a); lia.
Qed.






End Arithmetic.

(** ** The monad of the device context *)

Section Monad.

Lemma bind_ret_r {A} (m : M A) : bind m ret = m.
Proof.
  destruct m as [[a l]|]; [|done]. simpl. by rewrite app_nil_r.
Qed.

Lemma bind_Some {A B} (m : M A) (f : A → M B) b l :
  bind m f = Some (b, l) ↔
  ∃ a l1 l2, m = Some (a, l1) ∧ f a = Some (b, l2) ∧ l = l1 ++ l2.
Proof.
  split.
  - destruct m as [[a l1]|]; [|done]. simpl.
    destruct (f a) as [[b' l2]|] eqn:Hf; [|done].
    intros [= -> <-]. by exists a, l1, l2.
  - intros (a & l1 & l2 & -> & Hf & ->). simpl. by rewrite Hf.
Qed.

End Monad.

(** ** Seeking *)

Section Seeking.



Lemma computeSeekTime_refines dc req :
  fits64 (Start req - firstUnseenByte dc) →
  computeSeekTime dc req = spec.seekTime dc req.
Proof.
  intros Hfit. unfold computeSeekTime, spec.seekTime, spec.seeks, bsub.
  rewrite (wrap64_fits _ Hfit).
  destruct (String.eqb_spec (lastAccessedFile dc) (Path req)) as [Heq|Hne];
    destruct (Z.ltb_spec (Start req) (firstUnseenByte dc));
    destruct (Z.leb_spec (SeekWindow (deviceConfig dc))
                (Start req - firstUnseenByte dc));
    simpl; case_decide; try done; try (exfalso; intuition (congruence || lia)).
Qed.

(** C4. [computeSeekTime] charges the seek time of the configuration
    exactly when the request is for another file than the last accessed
    one (the empty name at the start), or starts before the first unseen
    byte, or starts at least a seek window after it, and zero otherwise,
    the difference of the two offsets being a 64-bit integer. A request
    that starts at the first unseen byte of the same file does not seek
    under a positive seek window; under a seek window of zero every
    request for the tracked file that does not go backwards seeks. *)
Theorem computeSeekTime_exactly dc req :
  fits64 (Start req - firstUnseenByte dc) →
  computeSeekTime dc req
  = (if decide (Path req ≠ lastAccessedFile dc
                ∨ Start req < firstUnseenByte dc
                ∨ Start req - firstUnseenByte dc
                  >= SeekWindow (deviceConfig dc))
     then SeekTime (deviceConfig dc) else 0)
  ∧ (Path req = lastAccessedFile dc →
     Start req = firstUnseenByte dc →
     0 < SeekWindow (deviceConfig dc) →
     computeSeekTime dc req = 0)
  ∧ (SeekWindow (deviceConfig dc) = 0 →
     Path req = lastAccessedFile dc →
     firstUnseenByte dc <= Start req →
     computeSeekTime dc req = SeekTime (deviceConfig dc)).
Proof.
  intros Hfit. rewrite (computeSeekTime_refines dc req Hfit).
  unfold spec.seekTime, spec.seeks.
  split; [|split].
  - repeat case_decide; done.
  - intros Hpath Hstart Hwin. case_decide as Hc; [|done].
    destruct Hc as [?|[?|?]]; [done|lia|lia].
  - intros Hwin Hpath Hle. case_decide as Hc; [done|].
    exfalso. apply Hc. right. right. lia.
Qed.

End Seeking.

(** ** The duration of a request *)

(** Case analysis on the kind of a request, in the order of the
    [switch] of [computeTime]. *)
Ltac by_kind req :=
  destruct (Z.eqb_spec (Type_ req) MetadataRequest);
  [|destruct (Z.eqb_spec (Type_ req) CloseRequest);
    [|destruct (Z.eqb_spec (Type_ req) AllocateRequest);
      [|destruct (Z.eqb_spec (Type_ req) ReadRequest);
        [|destruct (Z.eqb_spec (Type_ req) WriteRequest);
          [|destruct (Z.eqb_spec (Type_ req) FsyncRequest)]]]]];
  try match goal with
      | H : Type_ req = _ |- _ => rewrite ?H
      end;
  simpl.

Section RequestDuration.


Lemma requestDuration_returns dc req :
  cacheAllocated dc →
  ∃ d log, requestDuration dc req = Some (d, log).
Proof.
  intros Hcache. unfold requestDuration. by_kind req; eauto.
  - destruct (WriteStrategy_ _); eauto.
  - destruct (FsyncStrategy_ _) eqn:Hs; eauto.
    destruct (Hcache Hs) as [wbc Hwbc].
    unfold unwrittenBytesOf. rewrite Hwbc. simpl. eauto.
Qed.



Lemma computeTime_of_requestDuration dc req d log :
  requestDuration dc req = Some (d, log) →
  computeTime dc req
  = Some (sat64 (spec.returnedDelay (busyUntil dc) (Timestamp req) d), log).
Proof.
  intros Hd. unfold computeTime. rewrite Hd. simpl.
  rewrite app_nil_r, latestTime_max. done.
Qed.



End RequestDuration.

(** ** The write-back cache *)

Section Cache.
Implicit Types (wbc : gmap string NumBytes) (path : string).

Lemma getUnwrittenBytes_insert wbc path n q :
  getUnwrittenBytes (<[path := n]> wbc) q
  = if decide (path = q) then n else getUnwrittenBytes wbc q.
Proof.
  unfold getUnwrittenBytes. rewrite lookup_insert.
  by case_decide.
Qed.

Lemma getUnwrittenBytes_write wbc path n :
  getUnwrittenBytes (write wbc path n) path
  = getUnwrittenBytes wbc path + n.
Proof.
  unfold write. rewrite getUnwrittenBytes_insert. by case_decide.
Qed.

Lemma getUnwrittenBytes_close wbc path :
  close wbc path !! path = None
  ∧ getUnwrittenBytes (close wbc path) path = 0.
Proof.
  unfold getUnwrittenBytes, close. by rewrite !lookup_delete_eq.
Qed.


(** Draining takes from no path more than it holds and never spends
    more than the budget. *)
Lemma drainPath_bounds wbc0 (st : gmap string NumBytes * NumBytes) path :
  0 <= st.2 →
  (∀ q, 0 <= getUnwrittenBytes st.1 q <= getUnwrittenBytes wbc0 q) →
  0 <= (drainPath st path).2
  ∧ ∀ q, 0 <= getUnwrittenBytes (drainPath st path).1 q
         <= getUnwrittenBytes wbc0 q.
Proof.
  intros Hrem Hall. unfold drainPath. simpl.
  pose proof (Hall path). split; [lia|].
  intros q. rewrite getUnwrittenBytes_insert.
  pose proof (Hall q). case_decide; [subst|]; lia.
Qed.

Lemma foldl_drainPath_bounds wbc0 paths :
  ∀ st : gmap string NumBytes * NumBytes,
    0 <= st.2 →
    (∀ q, 0 <= getUnwrittenBytes st.1 q <= getUnwrittenBytes wbc0 q) →
    ∀ q, 0 <= getUnwrittenBytes (foldl drainPath st paths).1 q
         <= getUnwrittenBytes wbc0 q.
Proof.
  induction paths as [|path paths IH]; intros st Hrem Hall; [done|].
  simpl. destruct (drainPath_bounds wbc0 st path Hrem Hall).
  by apply IH.
Qed.

Lemma writeBack_bounds config wbc budget :
  0 <= WriteBytesPerSecond config →
  0 <= budget →
  (∀ q, 0 <= getUnwrittenBytes wbc q) →
  ∀ q, 0 <= getUnwrittenBytes (writeBack config wbc budget) q
       <= getUnwrittenBytes wbc q.
Proof.
  intros Hbps Hbudget Hnn. unfold writeBack.
  apply foldl_drainPath_bounds; simpl.
  - unfold drainableBytes, Second. apply Z.div_pos; lia.
  - intros q. pose proof (Hnn q). lia.
Qed.

End Cache.

(** ** The steps of [execute] *)

Section Steps.

Lemma dirtyBytes_afterSpareTime dc req path :
  0 <= WriteBytesPerSecond (deviceConfig dc) →
  cacheNonNegative dc →
  0 <= dirtyBytes (afterSpareTime dc req) path <= dirtyBytes dc path.
Proof.
  intros Hbps Hnn. pose proof (Hnn path) as Hpath.
  unfold afterSpareTime, writeBackSpareTime, onWriteBackCache.
  destruct (Z.ltb_spec 0 (Sub (Timestamp req) (busyUntil dc))); [|lia].
  unfold cacheNonNegative, dirtyBytes in *.
  destruct (writeBackCache dc) as [wbc|] eqn:Hwbc; simpl;
    [|rewrite Hwbc; lia].
  apply writeBack_bounds; [done|lia|done].
Qed.

Lemma afterSpareTime_frame dc req :
  deviceConfig (afterSpareTime dc req) = deviceConfig dc
  ∧ firstUnseenByte (afterSpareTime dc req) = firstUnseenByte dc
  ∧ lastAccessedFile (afterSpareTime dc req) = lastAccessedFile dc
  ∧ busyUntil (afterSpareTime dc req) = busyUntil dc
  ∧ (is_Some (writeBackCache dc) →
     is_Some (writeBackCache (afterSpareTime dc req))).
Proof.
  unfold afterSpareTime, writeBackSpareTime, onWriteBackCache.
  destruct (0 <? _); [|done].
  destruct (writeBackCache dc) eqn:Hw; simpl; rewrite ?Hw;
    repeat split; eauto.
Qed.

Lemma afterSpareTime_busy dc req :
  Timestamp req <= busyUntil dc → afterSpareTime dc req = dc.
Proof.
  intros Hbusy. unfold afterSpareTime, writeBackSpareTime.
  destruct (Z.ltb_spec 0 (Sub (Timestamp req) (busyUntil dc))) as [Hlt|];
    [|done].
  unfold Sub, sat64, minInt64, maxInt64 in Hlt. lia.
Qed.

(** [prepare] returns, and what it returns is the device context after
    the spare time, up to the statistics. *)
Lemma prepare_returns now dc req :
  ∃ dc1 log, prepare now dc req = Some (dc1, log)
             ∧ sameDevice dc1 (afterSpareTime dc req).
Proof.
  unfold prepare, afterSpareTime, logStatistics, countRequest.
  set (spare := Sub (Timestamp req) (busyUntil dc)).
  destruct (Type_ req =? ReadRequest); [|destruct (Type_ req =? WriteRequest)];
    destruct (30 * Second <? _); simpl;
    try destruct (_ || _); simpl;
    eexists _, _; (split; [reflexivity|]);
    unfold writeBackSpareTime, onWriteBackCache; simpl;
    destruct (0 <? spare); simpl; try (by split);
    destruct (writeBackCache dc); by split.
Qed.

Lemma requestDuration_sameDevice dc1 dc2 req :
  sameDevice dc1 dc2 → requestDuration dc1 req = requestDuration dc2 req.
Proof.
  intros [Hc Hf Hl Hb Hw].
  unfold requestDuration, computeSeekTime, unwrittenBytesOf.
  by rewrite Hc, Hf, Hl, Hw.
Qed.

Lemma computeTime_sameDevice dc1 dc2 req :
  sameDevice dc1 dc2 → computeTime dc1 req = computeTime dc2 req.
Proof.
  intros Hsame. unfold computeTime.
  rewrite (requestDuration_sameDevice dc1 dc2 req Hsame).
  by destruct Hsame as [_ _ _ -> _].
Qed.

(** The [switch] that ends [execute] returns and leaves the clock and
    the configuration alone. *)
Lemma applyRequest_returns dc req :
  ∃ dc2 log, applyRequest dc req = Some (dc2, log)
             ∧ busyUntil dc2 = busyUntil dc
             ∧ deviceConfig dc2 = deviceConfig dc
             ∧ (is_Some (writeBackCache dc) → is_Some (writeBackCache dc2)).
Proof.
  unfold applyRequest, onWriteBackCache.
  by_kind req;
    try destruct (WriteStrategy_ _);
    destruct (writeBackCache dc) eqn:Hw; simpl;
    try destruct (String.eqb _ _); simpl;
    eexists _, _; (split; [reflexivity|]); simpl; rewrite ?Hw;
    repeat split; eauto; by intros [? [=]].
Qed.

Lemma execute_steps now dc req dc1 l1 delay l2 dc2 l3 :
  prepare now dc req = Some (dc1, l1) →
  computeTime dc1 req = Some (delay, l2) →
  applyRequest (setBusyUntil dc1 (Add (Timestamp req) delay)) req
  = Some (dc2, l3) →
  execute now dc req = Some (dc2, l1 ++ l2 ++ l3).
Proof.
  intros Hp Hc Ha. unfold execute. rewrite Hp. simpl.
  rewrite Hc. simpl. rewrite Ha. done.
Qed.

End Steps.

(** ** [execute] as a whole *)

Section Execute.

Lemma cacheAllocated_afterSpareTime dc req :
  cacheAllocated dc → cacheAllocated (afterSpareTime dc req).
Proof.
  intros Hcache.
  destruct (afterSpareTime_frame dc req) as (Hc & _ & _ & _ & Hw).
  unfold cacheAllocated. rewrite Hc. auto.
Qed.

Lemma cacheNonNegative_afterSpareTime dc req :
  0 <= WriteBytesPerSecond (deviceConfig dc) →
  cacheNonNegative dc → cacheNonNegative (afterSpareTime dc req).
Proof.
  intros Hbps Hnn path.
  by destruct (dirtyBytes_afterSpareTime dc req path Hbps Hnn).
Qed.


(** [execute] returns when [computeTime] does on the device context
    after the spare time; the clock it leaves is the timestamp plus the
    delay. *)
Lemma execute_of_computeTime now dc req delay l2 :
  computeTime (afterSpareTime dc req) req = Some (delay, l2) →
  ∃ dc1 dc2 l1 l3,
    prepare now dc req = Some (dc1, l1)
    ∧ sameDevice dc1 (afterSpareTime dc req)
    ∧ applyRequest (setBusyUntil dc1 (Add (Timestamp req) delay)) req
      = Some (dc2, l3)
    ∧ execute now dc req = Some (dc2, l1 ++ l2 ++ l3)
    ∧ busyUntil dc2 = Timestamp req + delay
    ∧ deviceConfig dc2 = deviceConfig dc.
Proof.
  intros Hc.
  destruct (prepare_returns now dc req) as (dc1 & l1 & Hp & Hsame).
  rewrite <- (computeTime_sameDevice dc1 _ req Hsame) in Hc.
  destruct (applyRequest_returns
              (setBusyUntil dc1 (Add (Timestamp req) delay)) req)
    as (dc2 & l3 & Ha & Hb & Hcfg & _).
  exists dc1, dc2, l1, l3. split_and!; try done.
  - by apply execute_steps with dc1 delay.
  - destruct Hsame as [Hcfg1 _ _ _ _].
    destruct (afterSpareTime_frame dc req) as (Hcfg2 & _).
    simpl in Hcfg. congruence.
Qed.

Lemma execute_returns now dc req :
  cacheAllocated dc →
  ∃ dc' log, execute now dc req = Some (dc', log).
Proof.
  intros Hcache.
  destruct (requestDuration_returns (afterSpareTime dc req) req)
    as (d & l2 & Hd); [by apply cacheAllocated_afterSpareTime|].
  apply computeTime_of_requestDuration in Hd.
  destruct (execute_of_computeTime now dc req _ _ Hd)
    as (dc1 & dc2 & l1 & l3 & _ & _ & _ & He & _).
  eauto.
Qed.

(** The cache stays allocated. *)
Lemma newDeviceContext_cacheAllocated now config :
  cacheAllocated (newDeviceContext now config).
Proof.
  unfold cacheAllocated, newDeviceContext. simpl. by intros ->.
Qed.

Lemma execute_cacheAllocated now dc req dc' log :
  cacheAllocated dc →
  execute now dc req = Some (dc', log) →
  cacheAllocated dc'.
Proof.
  intros Hcache He.
  destruct (requestDuration_returns (afterSpareTime dc req) req)
    as (d & l2 & Hd); [by apply cacheAllocated_afterSpareTime|].
  apply computeTime_of_requestDuration in Hd.
  destruct (execute_of_computeTime now dc req _ _ Hd)
    as (dc1 & dc2 & l1 & l3 & _ & Hsame & Ha & He' & _ & Hcfg).
  rewrite He in He'. injection He' as -> _.
  destruct (applyRequest_returns
              (setBusyUntil dc1 (Add (Timestamp req)
                 (sat64 (spec.returnedDelay
                           (busyUntil (afterSpareTime dc req))
                           (Timestamp req) d)))) req)
    as (dc3 & l4 & Ha' & _ & _ & Hw).
  rewrite Ha in Ha'. injection Ha' as <- _.
  unfold cacheAllocated. rewrite Hcfg. intros Hs.
  apply Hw. simpl. destruct Hsame as [_ _ _ _ ->].
  apply (cacheAllocated_afterSpareTime dc req Hcache).
  by rewrite (proj1 (afterSpareTime_frame dc req)).
Qed.



End Execute.

(** ** Requests by kind *)

Section Kinds.

Lemma sequentiality_sameDevice dc1 dc2 :
  sameDevice dc1 dc2 → sequentiality dc1 = sequentiality dc2.
Proof. intros [_ Hf Hl _ _]. unfold sequentiality. by rewrite Hf, Hl. Qed.

Lemma sequentiality_afterSpareTime dc req :
  sequentiality (afterSpareTime dc req) = sequentiality dc.
Proof.
  destruct (afterSpareTime_frame dc req) as (_ & Hf & Hl & _).
  unfold sequentiality. by rewrite Hf, Hl.
Qed.

(** *** Kinds without a case *)




End Kinds.

Section Writes.

(** *** WRITE *)

Lemma requestDuration_write dc req :
  Type_ req = WriteRequest →
  requestDuration dc req
  = Some (match WriteStrategy_ (deviceConfig dc) with
          | FastWrite => 0
          | SimulateWrite =>
              dadd (computeSeekTime dc req)
                   (WriteTime (deviceConfig dc) (Size req))
          end, []).
Proof.
  intros Hty. unfold requestDuration. rewrite Hty. simpl.
  by destruct (WriteStrategy_ _).
Qed.

Lemma applyRequest_write dc req :
  Type_ req = WriteRequest →
  applyRequest dc req
  = Some (onWriteBackCache
            match WriteStrategy_ (deviceConfig dc) with
            | FastWrite => dc
            | SimulateWrite =>
                setSequentiality dc (Path req)
                  (badd (Start req) (Size req))
            end
            (λ wbc, write wbc (Path req) (Size req)), []).
Proof. intros Hty. unfold applyRequest. by rewrite Hty. Qed.

Lemma onWriteBackCache_frame dc f :
  deviceConfig (onWriteBackCache dc f) = deviceConfig dc
  ∧ sequentiality (onWriteBackCache dc f) = sequentiality dc
  ∧ busyUntil (onWriteBackCache dc f) = busyUntil dc
  ∧ writeBackCache (onWriteBackCache dc f) = f <$> writeBackCache dc.
Proof.
  unfold onWriteBackCache.
  destruct (writeBackCache dc) eqn:Hw; simpl; by rewrite ?Hw.
Qed.

(** What [execute] does with a WRITE. *)
Lemma execute_write now dc req :
  Type_ req = WriteRequest →
  ∃ dc' log,
    execute now dc req = Some (dc', log)
    ∧ sequentiality dc'
      = match WriteStrategy_ (deviceConfig dc) with
        | FastWrite => sequentiality dc
        | SimulateWrite => (Path req, badd (Start req) (Size req))
        end
    ∧ writeBackCache dc'
      = (λ wbc, write wbc (Path req) (Size req))
          <$> writeBackCache (afterSpareTime dc req)
    ∧ deviceConfig dc' = deviceConfig dc.
Proof.
  intros Hty.
  pose proof (computeTime_of_requestDuration _ req _ _
                (requestDuration_write (afterSpareTime dc req) req Hty))
    as Hc.
  destruct (execute_of_computeTime now dc req _ _ Hc)
    as (dc1 & dc2 & l1 & l3 & _ & Hsame & Ha & He & _ & Hcfg).
  rewrite (applyRequest_write _ req Hty) in Ha. injection Ha as <- <-.
  eexists _, _. split; [exact He|].
  split_and!; [| |exact Hcfg]; clear He Hc Hcfg.
  - pose proof (sequentiality_sameDevice _ _ Hsame) as Hseq.
    rewrite sequentiality_afterSpareTime in Hseq.
    destruct Hsame as [Hcfg1 _ _ _ _].
    rewrite (proj1 (afterSpareTime_frame dc req)) in Hcfg1.
    rewrite (proj1 (proj2 (onWriteBackCache_frame _ _))).
    simpl. rewrite Hcfg1. by destruct (WriteStrategy_ _).
  - destruct Hsame as [_ _ _ _ Hw].
    rewrite (proj2 (proj2 (proj2 (onWriteBackCache_frame _ _)))).
    rewrite <- Hw. by destruct (WriteStrategy_ _).
Qed.

(** C7. A WRITE under the write strategy "fast" leaves the
    sequentiality state, the last accessed file and the first unseen
    byte, as it was before, whatever the state of the device. *)
Theorem fast_write_keeps_sequentiality now dc req :
  Type_ req = WriteRequest →
  WriteStrategy_ (deviceConfig dc) = FastWrite →
  ∃ dc' log,
    execute now dc req = Some (dc', log)
    ∧ lastAccessedFile dc' = lastAccessedFile dc
    ∧ firstUnseenByte dc' = firstUnseenByte dc.
Proof.
  intros Hty Hfast.
  destruct (execute_write now dc req Hty) as (dc' & log & He & Hseq & _).
  exists dc', log. rewrite Hfast in Hseq.
  injection Hseq as Hl Hf. done.
Qed.

(** C10. With a write-back cache, [execute] adds the size of every
    WRITE to the dirty bytes of its path, under either write strategy,
    on top of what the spare time before the request has left. Under
    "simulate" the delay that [computeTime] returns for the WRITE
    contains the seek and the transfer of these bytes, and an FSYNC of
    the path on the resulting device is charged the transfer of the
    same bytes once more, as part of the dirty bytes of the path. *)
Theorem write_is_cached_under_both_strategies now dc req wbc :
  writeBackCache dc = Some wbc →
  Type_ req = WriteRequest →
  ∃ dc' log,
    execute now dc req = Some (dc', log)
    ∧ dirtyBytes dc' (Path req)
      = dirtyBytes (afterSpareTime dc req) (Path req) + Size req
    ∧ (WriteStrategy_ (deviceConfig dc) = SimulateWrite →
       computeTime dc req
       = Some (sat64 (Z.max (busyUntil dc) (Timestamp req)
                      + dadd (computeSeekTime dc req)
                             (WriteTime (deviceConfig dc) (Size req))
                      - Timestamp req), [])
       ∧ (FsyncStrategy_ (deviceConfig dc) = WriteBackCachedFsync →
          ∀ fsync,
            Type_ fsync = FsyncRequest →
            Path fsync = Path req →
            requestDuration dc' fsync
            = Some (dadd (SeekTime (deviceConfig dc))
                      (WriteTime (deviceConfig dc)
                         (dirtyBytes (afterSpareTime dc req) (Path req)
                          + Size req)), []))).
Proof.
  intros Hwbc Hty.
  destruct (execute_write now dc req Hty)
    as (dc' & log & He & _ & Hw & Hcfg).
  exists dc', log. split; [done|].
  destruct (afterSpareTime_frame dc req) as (_ & _ & _ & _ & Hsome).
  destruct (Hsome (mk_is_Some _ _ Hwbc)) as [wbc1 Hwbc1].
  rewrite Hwbc1 in Hw. simpl in Hw.
  assert (Hdirty : dirtyBytes dc' (Path req)
                   = dirtyBytes (afterSpareTime dc req) (Path req)
                     + Size req).
  { unfold dirtyBytes. rewrite Hw, Hwbc1.
    apply getUnwrittenBytes_write. }
  split; [done|]. intros Hsim. split.
  - rewrite (computeTime_of_requestDuration dc req _ _
               (requestDuration_write dc req Hty)).
    by rewrite Hsim.
  - intros Hfs fsync Hfty Hpath.
    unfold requestDuration. rewrite Hfty, Hcfg, Hfs. simpl.
    unfold unwrittenBytesOf. rewrite Hw. simpl.
    rewrite <- Hdirty. unfold dirtyBytes. by rewrite Hw, Hpath.
Qed.

End Writes.

Section Closes.

(** *** CLOSE *)

Lemma requestDuration_close dc req :
  Type_ req = CloseRequest →
  requestDuration dc req = Some (MetadataOpTime (deviceConfig dc), []).
Proof. intros Hty. unfold requestDuration. by rewrite Hty. Qed.

Lemma applyRequest_close dc req :
  Type_ req = CloseRequest →
  applyRequest dc req
  = Some (let dc' := onWriteBackCache dc (λ wbc, close wbc (Path req)) in
          if String.eqb (lastAccessedFile dc') (Path req)
          then setSequentiality dc' "" 0 else dc', []).
Proof.
  intros Hty. unfold applyRequest. rewrite Hty. simpl.
  by destruct (String.eqb _ _).
Qed.

(** What [execute] does with a CLOSE. *)
Lemma execute_close now dc req :
  Type_ req = CloseRequest →
  ∃ dc' log,
    execute now dc req = Some (dc', log)
    ∧ sequentiality dc'
      = (if String.eqb (lastAccessedFile dc) (Path req)
         then ("", 0) else sequentiality dc)
    ∧ writeBackCache dc'
      = (λ wbc, close wbc (Path req))
          <$> writeBackCache (afterSpareTime dc req)
    ∧ busyUntil dc'
      = Timestamp req
        + sat64 (Z.max (busyUntil dc) (Timestamp req)
                 + MetadataOpTime (deviceConfig dc) - Timestamp req)
    ∧ deviceConfig dc' = deviceConfig dc.
Proof.
  intros Hty.
  pose proof (computeTime_of_requestDuration _ req _ _
                (requestDuration_close (afterSpareTime dc req) req Hty))
    as Hc.
  destruct (execute_of_computeTime now dc req _ _ Hc)
    as (dc1 & dc2 & l1 & l3 & _ & Hsame & Ha & He & Hb & Hcfg).
  rewrite (applyRequest_close _ req Hty) in Ha. injection Ha as <- <-.
  eexists _, _. split; [exact He|].
  destruct (afterSpareTime_frame dc req) as (Hcfg2 & _ & _ & Hbusy & _).
  split_and!; [| | |exact Hcfg].
  3: { rewrite Hb. unfold spec.returnedDelay, spec.completion.
       by rewrite Hcfg2, Hbusy. }
  all: clear He Hb Hcfg Hc.
  - pose proof (sequentiality_sameDevice _ _ Hsame) as Hseq.
    rewrite sequentiality_afterSpareTime in Hseq.
    injection Hseq as Hl Hf. unfold sequentiality, onWriteBackCache.
    simpl. destruct (writeBackCache dc1); simpl; rewrite Hl;
      destruct (String.eqb _ _); simpl; by rewrite ?Hl, ?Hf.
  - destruct Hsame as [_ _ _ _ Hw]. unfold onWriteBackCache. simpl.
    rewrite <- Hw. destruct (writeBackCache dc1) eqn:Hw1; simpl;
      destruct (String.eqb _ _); simpl; by rewrite ?Hw1.
Qed.

Lemma dirtyBytes_closed dc path (cache : option (gmap string NumBytes)) :
  writeBackCache dc = (λ wbc, close wbc path) <$> cache →
  dirtyBytes dc path = 0
  ∧ ∀ wbc, writeBackCache dc = Some wbc → wbc !! path = None.
Proof.
  intros Hw. unfold dirtyBytes. rewrite Hw.
  destruct cache as [wbc0|]; simpl; [|done].
  destruct (getUnwrittenBytes_close wbc0 path) as [Hnone Hzero].
  split; [done|]. by intros wbc [= <-].
Qed.

(** C8. After [execute] of a CLOSE of a path, whatever the state of the
    device, the cache has no entry for the path, so that its dirty
    bytes are zero; when the path was the last accessed file, the last
    accessed file is cleared and the first unseen byte is zero; when
    another file was, the sequentiality state is unchanged. *)
Theorem close_forgets_the_file now dc req :
  Type_ req = CloseRequest →
  ∃ dc' log,
    execute now dc req = Some (dc', log)
    ∧ dirtyBytes dc' (Path req) = 0
    ∧ (∀ wbc, writeBackCache dc' = Some wbc → wbc !! Path req = None)
    ∧ (lastAccessedFile dc = Path req →
       lastAccessedFile dc' = "" ∧ firstUnseenByte dc' = 0)
    ∧ (lastAccessedFile dc ≠ Path req →
       lastAccessedFile dc' = lastAccessedFile dc
       ∧ firstUnseenByte dc' = firstUnseenByte dc).
Proof.
  intros Hty.
  destruct (execute_close now dc req Hty)
    as (dc' & log & He & Hseq & Hw & _).
  exists dc', log. split; [done|].
  destruct (dirtyBytes_closed dc' (Path req) _ Hw) as [Hzero Hnone].
  split_and!; [done|done| |].
  - intros Hlast.
    destruct (String.eqb_spec (lastAccessedFile dc) (Path req)); [|done].
    by injection Hseq as -> ->.
  - intros Hother.
    destruct (String.eqb_spec (lastAccessedFile dc) (Path req)); [done|].
    by injection Hseq as -> ->.
Qed.


End Closes.

(** ** The reachable device contexts *)

Section Reachable.

Lemma cacheNonNegative_same_cache dc1 dc2 :
  writeBackCache dc1 = writeBackCache dc2 →
  cacheNonNegative dc2 → cacheNonNegative dc1.
Proof.
  intros Hw Hnn q. specialize (Hnn q).
  unfold dirtyBytes in *. by rewrite Hw.
Qed.

Lemma cacheNonNegative_onWriteBackCache dc f :
  (∀ wbc, (∀ q, 0 <= getUnwrittenBytes wbc q) →
          ∀ q, 0 <= getUnwrittenBytes (f wbc) q) →
  cacheNonNegative dc → cacheNonNegative (onWriteBackCache dc f).
Proof.
  intros Hf Hnn q. specialize (Hf (default ∅ (writeBackCache dc))).
  unfold cacheNonNegative, dirtyBytes, onWriteBackCache in *.
  destruct (writeBackCache dc) eqn:Hw; simpl in *; rewrite ?Hw; [|done].
  by apply Hf.
Qed.

Lemma applyRequest_cacheNonNegative dc req dc' log :
  0 <= Size req →
  cacheNonNegative dc →
  applyRequest dc req = Some (dc', log) →
  cacheNonNegative dc'.
Proof.
  intros Hsize Hnn. unfold applyRequest.
  by_kind req; unfold ret; try destruct (String.eqb _ _);
    intros [= <- <-]; try done.
  - assert (Hc : cacheNonNegative
                   (onWriteBackCache dc (λ wbc, close wbc (Path req)))).
    { apply cacheNonNegative_onWriteBackCache; [|done].
      intros wbc Hwbc q. unfold getUnwrittenBytes, close.
      rewrite lookup_delete. case_decide; [done|apply Hwbc]. }
    done.
  - apply cacheNonNegative_onWriteBackCache; [|done].
    intros wbc Hwbc q. unfold getUnwrittenBytes, close.
    rewrite lookup_delete. case_decide; [done|apply Hwbc].
  - apply cacheNonNegative_onWriteBackCache.
    + intros wbc Hwbc q. unfold write.
      rewrite getUnwrittenBytes_insert. pose proof (Hwbc (Path req)).
      case_decide; [lia|apply Hwbc].
    + by destruct (WriteStrategy_ _).
  - apply cacheNonNegative_onWriteBackCache; [|done].
    intros wbc Hwbc q. unfold writeBackFile.
    rewrite getUnwrittenBytes_insert. case_decide; [done|apply Hwbc].
Qed.

Lemma execute_cacheNonNegative now dc req dc' log :
  0 <= WriteBytesPerSecond (deviceConfig dc) →
  0 <= Size req →
  cacheNonNegative dc →
  execute now dc req = Some (dc', log) →
  cacheNonNegative dc'.
Proof.
  intros Hbps Hsize Hnn He. unfold execute in He.
  apply bind_Some in He as (dc1 & l1 & l2 & Hp & He & _).
  apply bind_Some in He as (delay & l3 & l4 & _ & Ha & _).
  destruct (prepare_returns now dc req) as (dc1' & l1' & Hp' & Hsame).
  rewrite Hp in Hp'. injection Hp' as <- _.
  apply (applyRequest_cacheNonNegative
           (setBusyUntil dc1 (Add (Timestamp req) delay)) req dc' l4 Hsize);
    [|exact Ha].
  apply (cacheNonNegative_same_cache _ (afterSpareTime dc req)).
  - by destruct Hsame.
  - by apply cacheNonNegative_afterSpareTime.
Qed.

Lemma execute_deviceConfig now dc req dc' log :
  execute now dc req = Some (dc', log) → deviceConfig dc' = deviceConfig dc.
Proof.
  intros He. unfold execute in He.
  apply bind_Some in He as (dc1 & l1 & l2 & Hp & He & _).
  apply bind_Some in He as (delay & l3 & l4 & _ & Ha & _).
  destruct (prepare_returns now dc req) as (dc1' & l1' & Hp' & Hsame).
  rewrite Hp in Hp'. injection Hp' as <- _.
  destruct (applyRequest_returns
              (setBusyUntil dc1 (Add (Timestamp req) delay)) req)
    as (dc2 & l5 & Ha' & _ & Hcfg & _).
  rewrite Ha in Ha'. injection Ha' as <- _.
  destruct Hsame as [Hcfg1 _ _ _ _].
  rewrite (proj1 (afterSpareTime_frame dc req)) in Hcfg1.
  simpl in Hcfg. congruence.
Qed.

(** What the properties above assume of the device context holds of
    every reachable one: the cache is allocated when FSYNC reads it, and
    no count of dirty bytes is negative. *)
Lemma reachable_invariants config dc :
  0 <= WriteBytesPerSecond config →
  reachable config dc →
  deviceConfig dc = config ∧ cacheAllocated dc ∧ cacheNonNegative dc.
Proof.
  intros Hbps Hreach.
  induction Hreach as [now|now dc req dc' log _ IH Hsize He].
  - split; [done|]. split; [apply newDeviceContext_cacheAllocated|].
    intros q. unfold dirtyBytes, newDeviceContext. simpl.
    by destruct (FsyncStrategy_ config).
  - destruct IH as (Hcfg & Hcache & Hnn).
    split; [by rewrite (execute_deviceConfig _ _ _ _ _ He)|].
    split; [by apply (execute_cacheAllocated now dc req dc' log)|].
    apply (execute_cacheNonNegative now dc req dc' log); try done.
    by rewrite Hcfg.
Qed.

End Reachable.

(** ** The file operations of the FUSE layer *)

Section Adapter.
Import fuselayer.

Lemma not_OK st : st ≠ OK → negb (st =? OK) = true.
Proof. intros Hst. by destruct (Z.eqb_spec st OK). Qed.

(** C5, as the code has it. [Read] and [Write] return a failure of the
    underlying operation at once: [Schedule] is not called, the device
    context of the scheduler is as before and the caller does not
    sleep. [Schedule] is called after a successful operation only, with
    the bytes that were transferred as the size of the request. *)
Theorem failed_io_is_not_scheduled sf sched len off start now wake :
  (∀ r st, st ≠ OK →
     ∃ log, Read sf sched len off start now wake (r, st)
            = Some ({| value := Some r; status := st;
                       schedulerAfter := sched; slept := None |}, log))
  ∧ (∀ size buf st, st ≠ OK →
       Read sf sched len off start now wake
         ({| rrSize := size; rrBytes := (buf, st) |}, OK)
       = Some ({| value := None; status := st;
                  schedulerAfter := sched; slept := None |}, []))
  ∧ (∀ n st, st ≠ OK →
       ∃ log, Write sf sched len off start now wake (n, st)
              = Some ({| value := n; status := st;
                         schedulerAfter := sched; slept := None |}, log))
  ∧ (∀ size buf opTime sched' log,
       Schedule now sched
         {| Type_ := ReadRequest; Timestamp := start; Path := path sf;
            Start := off; Size := Z.of_nat (length buf) |}
       = Some ((opTime, sched'), log) →
       Read sf sched len off start now wake
         ({| rrSize := size; rrBytes := (buf, OK) |}, OK)
       = Some ({| value := Some (ReadResultData buf); status := OK;
                  schedulerAfter := sched';
                  slept := Some (dsub opTime (Since wake start)) |}, log))
  ∧ (∀ n opTime sched' log,
       Schedule now sched
         {| Type_ := WriteRequest; Timestamp := start; Path := path sf;
            Start := off; Size := n |}
       = Some ((opTime, sched'), log) →
       Write sf sched len off start now wake (n, OK)
       = Some ({| value := n; status := OK; schedulerAfter := sched';
                  slept := Some (dsub opTime (Since wake start)) |}, log)).
Proof.
  split_and!.
  - intros r st Hst. unfold Read. simpl. rewrite (not_OK st Hst).
    destruct (sfsVerboseLog sf); simpl; eauto.
  - intros size buf st Hst. unfold Read. simpl. by rewrite (not_OK st Hst).
  - intros n st Hst. unfold Write. simpl. rewrite (not_OK st Hst).
    destruct (sfsVerboseLog sf); simpl; eauto.
  - intros size buf opTime sched' log Hs. unfold Read. simpl.
    rewrite Hs. simpl. by rewrite app_nil_r.
  - intros n opTime sched' log Hs. unfold Write. simpl.
    rewrite Hs. simpl. by rewrite app_nil_r.
Qed.

End Adapter.

(** ** The properties on the sample devices *)

Section Samples.
Import samples fuselayer.

Lemma busy_cacheAllocated fsync wr t unseen dirty :
  cacheAllocated (busy fsync wr t unseen dirty).
Proof. intros _. by eexists. Defined.






(** Scenario 2 of section 8: the read that follows on. *)
Lemma computeSeekTime_exactly_witness :
  fits64 (Start (request ReadRequest "/a" MiB MiB 105000000)
          - firstUnseenByte (busy NoFsync FastWrite 105000000 MiB 0))
  ∧ computeSeekTime (busy NoFsync FastWrite 105000000 MiB 0)
      (request ReadRequest "/a" MiB MiB 105000000) = 0.
Proof.
  assert (Hfit : fits64 (Start (request ReadRequest "/a" MiB MiB 105000000)
          - firstUnseenByte (busy NoFsync FastWrite 105000000 MiB 0)))
    by (by vm_compute).
  split; [exact Hfit|].
  by apply (computeSeekTime_exactly
              (busy NoFsync FastWrite 105000000 MiB 0)
              (request ReadRequest "/a" MiB MiB 105000000) Hfit).
Defined.

Lemma failed_io_is_not_scheduled_witness :
  EIO ≠ OK
  ∧ ∃ log, Write {| path := "/a"; sfsVerboseLog := true |}
             (fresh NoFsync SimulateWrite) 4096 0 7 8 9 (0, EIO)
           = Some ({| value := 0; status := EIO;
                      schedulerAfter := fresh NoFsync SimulateWrite;
                      slept := None |}, log).
Proof.
  split; [done|].
  by apply (failed_io_is_not_scheduled
              {| path := "/a"; sfsVerboseLog := true |}
              (fresh NoFsync SimulateWrite) 4096 0 7 8 9).
Defined.



Lemma fast_write_keeps_sequentiality_witness :
  Type_ (request WriteRequest "/c" 0 524288 0) = WriteRequest
  ∧ WriteStrategy_
      (deviceConfig (busy WriteBackCachedFsync FastWrite 0 4096 0))
    = FastWrite
  ∧ ∃ dc' log,
      execute 0 (busy WriteBackCachedFsync FastWrite 0 4096 0)
        (request WriteRequest "/c" 0 524288 0) = Some (dc', log)
      ∧ lastAccessedFile dc' = "/a"
      ∧ firstUnseenByte dc' = 4096.
Proof.
  split; [done|]. split; [done|].
  by apply (fast_write_keeps_sequentiality 0
              (busy WriteBackCachedFsync FastWrite 0 4096 0)
              (request WriteRequest "/c" 0 524288 0)).
Defined.

Lemma close_forgets_the_file_witness :
  Type_ (request CloseRequest "/a" 0 0 0) = CloseRequest
  ∧ ∃ dc' log,
      execute 0 (busy WriteBackCachedFsync FastWrite 0 4096 512)
        (request CloseRequest "/a" 0 0 0) = Some (dc', log)
      ∧ dirtyBytes dc' "/a" = 0
      ∧ lastAccessedFile dc' = ""
      ∧ firstUnseenByte dc' = 0.
Proof.
  split; [done|].
  destruct (close_forgets_the_file 0
              (busy WriteBackCachedFsync FastWrite 0 4096 512)
              (request CloseRequest "/a" 0 0 0))
    as (dc' & log & He & Hd & _ & Hlast & _); [done|].
  exists dc', log. destruct Hlast as [Hl Hf]; [done|]. done.
Defined.


Lemma write_is_cached_under_both_strategies_witness :
  writeBackCache (busy WriteBackCachedFsync SimulateWrite 0 4096 512)
  = Some (<["/a" := 512]> (<["/b" := 512]> ∅))
  ∧ Type_ (request WriteRequest "/a" 4096 1024 0) = WriteRequest
  ∧ ∃ dc' log,
      execute 0 (busy WriteBackCachedFsync SimulateWrite 0 4096 512)
        (request WriteRequest "/a" 4096 1024 0) = Some (dc', log)
      ∧ dirtyBytes dc' "/a" = 1536
      ∧ requestDuration dc' (request FsyncRequest "/a" 0 0 0)
        = Some (5146484, []).
Proof.
  split; [done|]. split; [done|].
  destruct (write_is_cached_under_both_strategies 0
              (busy WriteBackCachedFsync SimulateWrite 0 4096 512)
              (request WriteRequest "/a" 4096 1024 0)
              (<["/a" := 512]> (<["/b" := 512]> ∅)))
    as (dc' & log & He & Hd & Hsim); [done|done|].
  exists dc', log. split; [done|]. split; [exact Hd|].
  destruct Hsim as [_ Hfsync]; [done|].
  by rewrite (Hfsync eq_refl (request FsyncRequest "/a" 0 0 0)).
Defined.

End Samples.

(** ** The scenarios of section 8 and the inputs that refute *)

Section Scenarios.
Import samples fuselayer.

(** Scenario 1, a single cold read: 5 ms of seek and 100 ms of
    transfer. *)
Example scenario_cold_read :
  ∃ dc', result (Schedule 0 (fresh WriteBackCachedFsync SimulateWrite)
                   (request ReadRequest "/a" 0 MiB 0))
         = Some (105000000, dc')
         ∧ sequentiality dc' = ("/a", 1048576)
         ∧ busyUntil dc' = 105000000.
Proof.
  eexists. split; [vm_compute; reflexivity|]. by vm_compute.
Qed.

(** Scenario 3, a backward seek. *)
Example scenario_backward_seek :
  fst <$> result (Schedule 0
                    (busy WriteBackCachedFsync SimulateWrite
                       205000000 2097152 0)
                    (request ReadRequest "/a" 0 4096 205000000))
  = Some 5390625.
Proof. by vm_compute. Qed.

(** Scenario 6, the cache drains while the device is idle. *)
Example scenario_idle_drain :
  ∃ dc1 dc2,
    result (Schedule 0 (fresh WriteBackCachedFsync FastWrite)
              (request WriteRequest "/c" 0 MiB 0)) = Some (0, dc1)
    ∧ dirtyBytes dc1 "/c" = MiB
    ∧ result (Schedule 0 dc1
                (request MetadataRequest "" 0 0 500000000))
      = Some (1000000, dc2)
    ∧ dirtyBytes dc2 "/c" = 0.
Proof.
  eexists _, _. split; [vm_compute; reflexivity|].
  split; [by vm_compute|]. split; [vm_compute; reflexivity|].
  by vm_compute.
Qed.

(** C5 fails on a write that the underlying file refuses: [Write]
    returns the error, does not sleep and leaves the scheduler as it
    was, whereas [execute] of the request for the zero bytes written
    would have changed it. *)
Lemma failed_write_skips_schedule :
  result (Write {| path := "/a"; sfsVerboseLog := false |}
            (fresh NoFsync SimulateWrite) 4096 0 0 0 0 (0, EIO))
  = Some {| value := 0; status := EIO;
            schedulerAfter := fresh NoFsync SimulateWrite;
            slept := None |}
  ∧ ∃ dc',
      result (execute 0 (fresh NoFsync SimulateWrite)
                (request WriteRequest "/a" 0 0 0)) = Some dc'
      ∧ dc' ≠ fresh NoFsync SimulateWrite.
Proof.
  split; [by vm_compute|].
  eexists. split; [vm_compute; reflexivity|].
  intros Heq. apply (f_equal windowWrites) in Heq. by vm_compute in Heq.
Qed.





End Scenarios.

(** ** More of the device context *)

Section Inversion.

(** What a run of [execute] that returns went through. *)
Lemma execute_inv now dc req dc' log :
  execute now dc req = Some (dc', log) →
  ∃ dc1 l1 delay l2 l3,
    prepare now dc req = Some (dc1, l1)
    ∧ sameDevice dc1 (afterSpareTime dc req)
    ∧ computeTime dc1 req = Some (delay, l2)
    ∧ applyRequest (setBusyUntil dc1 (Add (Timestamp req) delay)) req
      = Some (dc', l3)
    ∧ log = l1 ++ l2 ++ l3.
Proof.
  intros He. unfold execute in He.
  apply bind_Some in He as (dc1 & l1 & l23 & Hp & He & ->).
  apply bind_Some in He as (delay & l2 & l3 & Hc & Ha & ->).
  destruct (prepare_returns now dc req) as (dc1' & l1' & Hp' & Hsame).
  rewrite Hp in Hp'. injection Hp' as <- _.
  by exists dc1, l1, delay, l2, l3.
Qed.

Lemma applyRequest_cache_presence dc req dc' log :
  applyRequest dc req = Some (dc', log) →
  is_Some (writeBackCache dc') ↔ is_Some (writeBackCache dc).
Proof.
  unfold applyRequest, onWriteBackCache.
  by_kind req; unfold ret;
    try destruct (WriteStrategy_ _);
    destruct (writeBackCache dc) eqn:Hw; simpl;
    try destruct (String.eqb _ _); simpl;
    intros [= <- <-]; simpl; rewrite ?Hw; simpl; rewrite ?Hw;
    try reflexivity; split; intros _; by eexists.
Qed.

Lemma afterSpareTime_cache_presence dc req :
  is_Some (writeBackCache (afterSpareTime dc req))
  ↔ is_Some (writeBackCache dc).
Proof.
  unfold afterSpareTime, writeBackSpareTime.
  destruct (0 <? _); [|done].
  rewrite (proj2 (proj2 (proj2 (onWriteBackCache_frame _ _)))).
  by rewrite fmap_is_Some.
Qed.

Lemma execute_cache_presence now dc req dc' log :
  execute now dc req = Some (dc', log) →
  is_Some (writeBackCache dc') ↔ is_Some (writeBackCache dc).
Proof.
  intros He.
  apply execute_inv in He as (dc1 & l1 & delay & l2 & l3
                              & _ & Hsame & _ & Ha & _).
  rewrite (applyRequest_cache_presence _ _ _ _ Ha). simpl.
  destruct Hsame as [_ _ _ _ ->].
  apply afterSpareTime_cache_presence.
Qed.

End Inversion.

Section NeverPanics.

(** X1. A device context made by [newDeviceContext] and taken through
    any number of [execute]s keeps its configuration and has a
    write-back cache exactly when the fsync strategy is the write-back
    one; on it neither [computeTime] nor [execute] dereferences the nil
    cache: both return for every request. *)
Theorem reachable_never_panics config dc :
  reachable config dc →
  deviceConfig dc = config
  ∧ (is_Some (writeBackCache dc)
     ↔ FsyncStrategy_ config = WriteBackCachedFsync)
  ∧ ∀ now req,
      (∃ delay log, computeTime dc req = Some (delay, log))
      ∧ ∃ dc' log, execute now dc req = Some (dc', log).
Proof.
  intros Hreach.
  assert (Hinv : deviceConfig dc = config
                 ∧ (is_Some (writeBackCache dc)
                    ↔ FsyncStrategy_ config = WriteBackCachedFsync)).
  { induction Hreach as [now|now dc req dc' log _ IH _ He].
    - split; [done|]. unfold newDeviceContext. simpl.
      destruct (FsyncStrategy_ config); split; try done;
        by intros [? [=]].
    - destruct IH as [Hcfg Hiff]. split.
      + by rewrite (execute_deviceConfig _ _ _ _ _ He).
      + by rewrite (execute_cache_presence _ _ _ _ _ He). }
  destruct Hinv as [Hcfg Hiff]. split; [done|]. split; [done|].
  assert (Hcache : cacheAllocated dc).
  { unfold cacheAllocated. rewrite Hcfg. apply Hiff. }
  intros now req. split; [|by apply execute_returns].
  destruct (requestDuration_returns dc req Hcache) as (d & log & Hd).
  eexists _, _. by apply computeTime_of_requestDuration.
Qed.

End NeverPanics.

Section Statistics.

Lemma sameDevice_refl dc : sameDevice dc dc.
Proof. by split. Qed.

Lemma sameDevice_sym dc1 dc2 : sameDevice dc1 dc2 → sameDevice dc2 dc1.
Proof. intros []. by split. Qed.

Lemma sameDevice_trans dc1 dc2 dc3 :
  sameDevice dc1 dc2 → sameDevice dc2 dc3 → sameDevice dc1 dc3.
Proof. intros [] []. split; congruence. Qed.

Lemma afterSpareTime_sameDevice dc1 dc2 req :
  sameDevice dc1 dc2 →
  sameDevice (afterSpareTime dc1 req) (afterSpareTime dc2 req).
Proof.
  intros [Hc Hf Hl Hb Hw].
  unfold afterSpareTime, writeBackSpareTime, onWriteBackCache.
  rewrite Hb. destruct (0 <? _); [|by split].
  rewrite Hw. destruct (writeBackCache dc2) eqn:Hw2; split; simpl;
    congruence.
Qed.

Lemma applyRequest_sameDevice dc1 dc2 req dc1' log :
  sameDevice dc1 dc2 →
  applyRequest dc1 req = Some (dc1', log) →
  ∃ dc2', applyRequest dc2 req = Some (dc2', log) ∧ sameDevice dc1' dc2'.
Proof.
  intros [Hc Hf Hl Hb Hw]. unfold applyRequest, onWriteBackCache.
  rewrite Hc, Hw.
  by_kind req; unfold ret;
    try destruct (WriteStrategy_ _);
    destruct (writeBackCache dc2) eqn:Hw2; simpl; rewrite ?Hl;
    try destruct (String.eqb _ _); simpl;
    intros [= <- <-]; eexists; (split; [reflexivity|]);
    split; simpl; rewrite ?Hw, ?Hw2; simpl; congruence.
Qed.

(** X2. The statistics and the clock that times them have no part in
    the scheduling: on two device contexts that differ in the
    statistics at most, [computeTime] returns the same delay, and
    [execute], at whatever readings of the clock, leaves device
    contexts that again differ in the statistics at most. *)
Theorem statistics_do_not_schedule now1 now2 dc1 dc2 req dc1' log1 :
  sameDevice dc1 dc2 →
  execute now1 dc1 req = Some (dc1', log1) →
  computeTime dc1 req = computeTime dc2 req
  ∧ ∃ dc2' log2,
      execute now2 dc2 req = Some (dc2', log2) ∧ sameDevice dc1' dc2'.
Proof.
  intros Hsame He. split; [by apply computeTime_sameDevice|].
  apply execute_inv in He as (dc1a & l1 & delay & l2 & l3
                              & _ & Hsame1 & Hc & Ha & _).
  destruct (prepare_returns now2 dc2 req) as (dc2a & l1' & Hp2 & Hsame2).
  assert (Hsame12 : sameDevice dc1a dc2a).
  { apply (sameDevice_trans _ _ _ Hsame1).
    apply sameDevice_sym.
    apply (sameDevice_trans _ _ _ Hsame2).
    by apply afterSpareTime_sameDevice, sameDevice_sym. }
  rewrite (computeTime_sameDevice _ _ req Hsame12) in Hc.
  destruct (applyRequest_sameDevice
              (setBusyUntil dc1a (Add (Timestamp req) delay))
              (setBusyUntil dc2a (Add (Timestamp req) delay))
              req dc1' l3) as (dc2' & Ha2 & Hsame').
  { destruct Hsame12. by split. }
  { exact Ha. }
  exists dc2', (l1' ++ l2 ++ l3). split; [|done].
  by apply execute_steps with dc2a delay.
Qed.

Lemma applyRequest_statistics dc req dc' log :
  applyRequest dc req = Some (dc', log) →
  statistics dc' = statistics dc
  ∧ List.filter isIOSpeed log = [].
Proof.
  unfold applyRequest, onWriteBackCache.
  by_kind req; unfold ret;
    try destruct (WriteStrategy_ _);
    destruct (writeBackCache dc) eqn:Hw; simpl;
    try destruct (String.eqb _ _); simpl;
    intros [= <- <-]; simpl; rewrite ?Hw; by split.
Qed.

Lemma computeTime_logs_no_statistics dc req delay log :
  computeTime dc req = Some (delay, log) →
  List.filter isIOSpeed log = [].
Proof.
  unfold computeTime. intros Hc.
  apply bind_Some in Hc as (d & l1 & l2 & Hd & [= <- <-] & ->).
  rewrite app_nil_r. revert Hd. unfold requestDuration, unwrittenBytesOf.
  by_kind req; unfold ret;
    try destruct (WriteStrategy_ _);
    try destruct (FsyncStrategy_ _);
    try destruct (writeBackCache dc); simpl;
    by intros [= <- <-].
Qed.

Lemma writeBackSpareTime_statistics dc spare :
  statistics (writeBackSpareTime dc spare) = statistics dc.
Proof.
  unfold writeBackSpareTime, onWriteBackCache.
  destruct (0 <? spare); [|done]. by destruct (writeBackCache dc).
Qed.

(** X3. [execute] counts the request into the window first, and then,
    when more than 30 seconds have passed since the window began, logs
    one line with the counters, the request included, if there was a
    read or a write, and starts a new window at the reading of the
    clock with all counters at zero; otherwise it logs no line of
    statistics and keeps the window with the request counted. *)
Theorem statistics_window now dc req dc' log :
  execute now dc req = Some (dc', log) →
  let counted := countRequest dc req in
  if 30 * Second <? Since now (lastLogTime dc) then
    statistics dc' = (0, 0, 0, 0, now)
    ∧ List.filter isIOSpeed log
      = (if (0 <? windowReads counted) || (0 <? windowWrites counted)
         then [IOSpeed (windowReadBytes counted) (windowReads counted)
                 (windowWriteBytes counted) (windowWrites counted)
                 (Since now (lastLogTime dc))]
         else [])
  else
    statistics dc' = statistics counted
    ∧ List.filter isIOSpeed log = [].
Proof.
  intros He counted.
  apply execute_inv in He as (dc1 & l1 & delay & l2 & l3
                              & Hp & _ & Hc & Ha & ->).
  destruct (applyRequest_statistics _ _ _ _ Ha) as [Hs3 Hl3].
  pose proof (computeTime_logs_no_statistics _ _ _ _ Hc) as Hl2.
  rewrite !List.filter_app, Hl2, Hl3, !app_nil_r, Hs3.
  change (statistics (setBusyUntil dc1 (Add (Timestamp req) delay)))
    with (statistics dc1).
  clear Hs3 Hl3 Hl2 Hc Ha.
  unfold prepare, logStatistics in Hp. fold counted in Hp.
  assert (Hlast : lastLogTime counted = lastLogTime dc).
  { unfold counted, countRequest.
    by repeat destruct (_ =? _). }
  rewrite Hlast in Hp.
  destruct (30 * Second <? Since now (lastLogTime dc)).
  - destruct ((0 <? windowReads counted) || (0 <? windowWrites counted));
      simpl in Hp; injection Hp as <- <-;
      by rewrite writeBackSpareTime_statistics.
  - simpl in Hp. injection Hp as <- <-.
    by rewrite writeBackSpareTime_statistics.
Qed.

End Statistics.

Section Clock.

Lemma requestDuration_without_cache dc1 dc2 req :
  Type_ req ≠ FsyncRequest →
  deviceConfig dc1 = deviceConfig dc2 →
  sequentiality dc1 = sequentiality dc2 →
  requestDuration dc1 req = requestDuration dc2 req.
Proof.
  intros Hty Hc [= Hl Hf].
  unfold requestDuration, computeSeekTime. rewrite Hc, Hl, Hf.
  by by_kind req.
Qed.

Lemma requestDuration_returns_unless_fsync dc req :
  Type_ req ≠ FsyncRequest →
  ∃ d log, requestDuration dc req = Some (d, log).
Proof.
  intros Hty. unfold requestDuration.
  by_kind req; try done; try destruct (WriteStrategy_ _); eauto.
Qed.

Lemma computeTime_afterSpareTime dc req :
  Type_ req ≠ FsyncRequest ∨ Timestamp req <= busyUntil dc →
  computeTime (afterSpareTime dc req) req = computeTime dc req.
Proof.
  intros [Hty|Hbusy]; [|by rewrite afterSpareTime_busy].
  destruct (afterSpareTime_frame dc req) as (Hc & _ & _ & Hb & _).
  unfold computeTime.
  rewrite (requestDuration_without_cache _ dc req Hty Hc
             (sequentiality_afterSpareTime dc req)).
  by rewrite Hb.
Qed.

(** X4. For a request that is not an FSYNC, and for an FSYNC that is
    stamped while the device is busy, [execute] sets [busyUntil] to
    the timestamp plus the delay that [computeTime] returns on the
    device context before [execute]: the delay handed to the caller
    ends when the device is free again. *)
Theorem busyUntil_is_timestamp_plus_delay now dc req delay l :
  Type_ req ≠ FsyncRequest ∨ Timestamp req <= busyUntil dc →
  computeTime dc req = Some (delay, l) →
  ∃ dc' log,
    execute now dc req = Some (dc', log)
    ∧ busyUntil dc' = Timestamp req + delay.
Proof.
  intros Hcase Hc.
  rewrite <- (computeTime_afterSpareTime dc req Hcase) in Hc.
  destruct (execute_of_computeTime now dc req _ _ Hc)
    as (dc1 & dc2 & l1 & l3 & _ & _ & _ & He & Hb & _).
  by exists dc2, (l1 ++ l ++ l3).
Qed.

End Clock.

Section Frames.

Lemma applyRequest_nothing dc req :
  Type_ req = MetadataRequest ∨ Type_ req = AllocateRequest →
  applyRequest dc req = Some (dc, []).
Proof.
  intros [Hty|Hty]; unfold applyRequest; by rewrite Hty.
Qed.

(** What [execute] does with a METADATA and with an ALLOCATE. *)
Lemma execute_metadata_or_allocate now dc req :
  Type_ req = MetadataRequest ∨ Type_ req = AllocateRequest →
  ∃ dc' log,
    execute now dc req = Some (dc', log)
    ∧ sameDevice dc' (setBusyUntil (afterSpareTime dc req) (busyUntil dc')).
Proof.
  intros Hty.
  destruct (requestDuration_returns_unless_fsync
              (afterSpareTime dc req) req) as (d & l2 & Hd).
  { by destruct Hty as [-> | ->]. }
  apply computeTime_of_requestDuration in Hd.
  destruct (execute_of_computeTime now dc req _ _ Hd)
    as (dc1 & dc2 & l1 & l3 & _ & Hsame & Ha & He & _ & _).
  rewrite (applyRequest_nothing _ req Hty) in Ha. injection Ha as <- <-.
  eexists _, _. split; [exact He|].
  destruct Hsame. by split.
Qed.

(** X5. A METADATA and an ALLOCATE request change neither the
    sequentiality state nor the configuration, and the cache only by
    the write-back of the spare time before them: not at all when they
    are stamped while the device is busy. *)
Theorem metadata_and_allocate_keep_the_files now dc req :
  Type_ req = MetadataRequest ∨ Type_ req = AllocateRequest →
  ∃ dc' log,
    execute now dc req = Some (dc', log)
    ∧ sequentiality dc' = sequentiality dc
    ∧ deviceConfig dc' = deviceConfig dc
    ∧ writeBackCache dc' = writeBackCache (afterSpareTime dc req)
    ∧ (Timestamp req <= busyUntil dc →
       writeBackCache dc' = writeBackCache dc).
Proof.
  intros Hty.
  destruct (execute_metadata_or_allocate now dc req Hty)
    as (dc' & log & He & [Hc Hf Hl _ Hw]).
  simpl in Hc, Hf, Hl, Hw.
  destruct (afterSpareTime_frame dc req) as (Hc2 & Hf2 & Hl2 & _).
  exists dc', log. split; [exact He|]. split_and!.
  - unfold sequentiality. congruence.
  - congruence.
  - exact Hw.
  - intros Hbusy. by rewrite Hw, afterSpareTime_busy.
Qed.

Lemma requestDuration_fsync_returns dc req :
  Type_ req = FsyncRequest →
  cacheAllocated dc →
  ∃ d, requestDuration dc req = Some (d, []).
Proof.
  intros Hty Hcache. unfold requestDuration. rewrite Hty. simpl.
  destruct (FsyncStrategy_ _) eqn:Hs; eauto.
  destruct (Hcache Hs) as [wbc Hwbc].
  unfold unwrittenBytesOf. rewrite Hwbc. simpl. eauto.
Qed.

Lemma applyRequest_fsync dc req :
  Type_ req = FsyncRequest →
  applyRequest dc req
  = Some (onWriteBackCache dc (λ wbc, writeBackFile wbc (Path req)), []).
Proof. intros Hty. unfold applyRequest. by rewrite Hty. Qed.

(** X6. An FSYNC, on a device context whose cache is there when the
    fsync strategy needs it, leaves the sequentiality state as it was,
    the file without dirty bytes, and every other file with the dirty
    bytes that the write-back of the spare time before the request
    left it. *)
Theorem fsync_cleans_its_file_only now dc req :
  Type_ req = FsyncRequest →
  cacheAllocated dc →
  ∃ dc' log,
    execute now dc req = Some (dc', log)
    ∧ sequentiality dc' = sequentiality dc
    ∧ dirtyBytes dc' (Path req) = 0
    ∧ ∀ path, path ≠ Path req →
        dirtyBytes dc' path = dirtyBytes (afterSpareTime dc req) path.
Proof.
  intros Hty Hcache.
  destruct (requestDuration_fsync_returns (afterSpareTime dc req) req Hty)
    as (d & Hd); [by apply cacheAllocated_afterSpareTime|].
  apply computeTime_of_requestDuration in Hd.
  destruct (execute_of_computeTime now dc req _ _ Hd)
    as (dc1 & dc2 & l1 & l3 & _ & Hsame & Ha & He & _ & _).
  rewrite (applyRequest_fsync _ req Hty) in Ha. injection Ha as <- <-.
  eexists _, _. split; [exact He|]. clear He Hd.
  match goal with
  | |- context [onWriteBackCache ?x ?f] =>
      destruct (onWriteBackCache_frame x f) as (_ & Hs & _ & Hw)
  end.
  simpl in Hw. destruct Hsame as [_ Hf Hl _ Hw1].
  destruct (afterSpareTime_frame dc req) as (_ & Hf2 & Hl2 & _).
  split_and!.
  - rewrite Hs. unfold sequentiality. simpl. congruence.
  - unfold dirtyBytes. rewrite Hw, Hw1.
    destruct (writeBackCache (afterSpareTime dc req)); simpl; [|done].
    unfold writeBackFile. rewrite getUnwrittenBytes_insert.
    by case_decide.
  - intros q Hq. unfold dirtyBytes. rewrite Hw, Hw1.
    destruct (writeBackCache (afterSpareTime dc req)); simpl; [|done].
    unfold writeBackFile. rewrite getUnwrittenBytes_insert.
    by case_decide.
Qed.

End Frames.

Section SequentialReads.

Lemma requestDuration_read dc req :
  Type_ req = ReadRequest →
  requestDuration dc req
  = Some (dadd (computeSeekTime dc req)
               (ReadTime (deviceConfig dc) (Size req)), []).
Proof. intros Hty. unfold requestDuration. by rewrite Hty. Qed.

Lemma applyRequest_read dc req :
  Type_ req = ReadRequest →
  applyRequest dc req
  = Some (setSequentiality dc (Path req) (badd (Start req) (Size req)),
          []).
Proof. intros Hty. unfold applyRequest. by rewrite Hty. Qed.

(** What [execute] does with a READ. *)
Lemma execute_read now dc req :
  Type_ req = ReadRequest →
  ∃ dc' log,
    execute now dc req = Some (dc', log)
    ∧ sequentiality dc' = (Path req, badd (Start req) (Size req))
    ∧ deviceConfig dc' = deviceConfig dc.
Proof.
  intros Hty.
  pose proof (computeTime_of_requestDuration _ req _ _
                (requestDuration_read (afterSpareTime dc req) req Hty))
    as Hc.
  destruct (execute_of_computeTime now dc req _ _ Hc)
    as (dc1 & dc2 & l1 & l3 & _ & _ & Ha & He & _ & Hcfg).
  rewrite (applyRequest_read _ req Hty) in Ha. injection Ha as <- <-.
  eexists _, _. by split; [exact He|].
Qed.

(** A request that starts at the first unseen byte of the last accessed
    file does not seek, under a positive seek window. *)
Lemma computeSeekTime_contiguous dc req :
  0 < SeekWindow (deviceConfig dc) →
  sequentiality dc = (Path req, Start req) →
  computeSeekTime dc req = 0.
Proof.
  intros Hwin [= Hl Hf]. unfold computeSeekTime, bsub.
  rewrite Hl, Hf, String.eqb_refl, Z.ltb_irrefl, Z.sub_diag.
  rewrite (wrap64_fits 0) by (by vm_compute). simpl.
  destruct (Z.leb_spec (SeekWindow (deviceConfig dc)) 0); [lia|done].
Qed.

Lemma seeksOfReads_contiguous path chunks :
  ∀ dc start,
    0 < SeekWindow (deviceConfig dc) →
    sequentiality dc = (path, start) →
    0 <= start →
    Forall (λ chunk, 0 <= chunk.2) chunks →
    start + totalSize chunks <= maxInt64 →
    ∃ seeks, seeksOfReads dc path start chunks = Some seeks
             ∧ length seeks = length chunks
             ∧ Forall (λ seek, seek = 0) seeks.
Proof.
  induction chunks as [|[[now ts] size] chunks IH];
    intros dc start Hwin Hseq Hstart Hsizes Htotal.
  - by exists [].
  - apply Forall_cons in Hsizes as [Hsize Hsizes].
    simpl in Hsize, Htotal. simpl.
    set (req := {| Type_ := ReadRequest; Timestamp := ts; Path := path;
                   Start := start; Size := size |}).
    destruct (execute_read now dc req eq_refl)
      as (dc' & log & He & Hseq' & Hcfg).
    rewrite He. simpl.
    assert (Htot : 0 <= totalSize chunks).
    { clear -Hsizes. induction Hsizes; simpl; [done|lia]. }
    destruct (IH dc' (badd start size)) as (seeks & Hs & Hlen & Hzero).
    + by rewrite Hcfg.
    + exact Hseq'.
    + unfold badd. rewrite wrap64_fits; [lia|].
      unfold fits64, minInt64, maxInt64 in *. lia.
    + exact Hsizes.
    + unfold badd. rewrite wrap64_fits; [lia|].
      unfold fits64, minInt64, maxInt64 in *. lia.
    + rewrite Hs. simpl. eexists. split; [done|].
      split; [simpl; by rewrite Hlen|].
      apply Forall_cons. split; [|done].
      by apply (computeSeekTime_contiguous dc req).
Qed.

(** X7. A file read in consecutive chunks, each READ starting where
    the one before ended, is charged one seek at most, that of the
    first READ, whatever the device context before, the timestamps
    and the sizes of the chunks: under a positive seek window and for
    offsets that stay within the 64-bit byte counts. *)
Theorem consecutive_reads_seek_once dc path start chunks :
  0 < SeekWindow (deviceConfig dc) →
  0 <= start →
  Forall (λ chunk, 0 <= chunk.2) chunks →
  start + totalSize chunks <= maxInt64 →
  ∃ seeks, seeksOfReads dc path start chunks = Some seeks
           ∧ length seeks = length chunks
           ∧ Forall (λ seek, seek = 0) (tail seeks).
Proof.
  intros Hwin Hstart Hsizes Htotal.
  destruct chunks as [|[[now ts] size] chunks]; [by exists []|].
  apply Forall_cons in Hsizes as [Hsize Hsizes].
  simpl in Hsize, Htotal. simpl.
  set (req := {| Type_ := ReadRequest; Timestamp := ts; Path := path;
                 Start := start; Size := size |}).
  destruct (execute_read now dc req eq_refl)
    as (dc' & log & He & Hseq' & Hcfg).
  rewrite He. simpl.
  assert (Htot : 0 <= totalSize chunks).
  { clear -Hsizes. induction Hsizes; simpl; [done|lia]. }
  assert (Hadd : badd start size = start + size).
  { unfold badd. apply wrap64_fits.
    unfold fits64, minInt64, maxInt64 in *. lia. }
  destruct (seeksOfReads_contiguous path chunks dc' (badd start size))
    as (seeks & Hs & Hlen & Hzero).
  - by rewrite Hcfg.
  - exact Hseq'.
  - lia.
  - exact Hsizes.
  - lia.
  - rewrite Hs. simpl. eexists. split; [done|].
    split; [simpl; by rewrite Hlen|done].
Qed.

End SequentialReads.

Section FreshDevice.

(** X8. The first request of a device is not delayed by earlier work:
    on the device context of [newDeviceContext], [computeTime] returns
    the duration of the request itself, for a timestamp that is not
    before the zero time and a duration that is a [Duration]. A request
    that names a file seeks. *)
Theorem first_request_waits_for_nothing now config req d log :
  0 <= Timestamp req →
  fits64 d →
  requestDuration (newDeviceContext now config) req = Some (d, log) →
  computeTime (newDeviceContext now config) req = Some (d, log)
  ∧ (Path req ≠ "" →
     computeSeekTime (newDeviceContext now config) req = SeekTime config).
Proof.
  intros Hts Hfit Hd. split.
  - rewrite (computeTime_of_requestDuration _ req d log Hd).
    unfold spec.returnedDelay, spec.completion. simpl.
    unfold zeroTime. do 2 f_equal.
    replace (0 `max` Timestamp req + d - Timestamp req) with d by lia.
    by apply sat64_fits.
  - intros Hpath. unfold computeSeekTime. simpl.
    by destruct (Path req).
Qed.

End FreshDevice.

Section Names.

(** X9. [RequestType.String] gives the seven kinds of the enumeration
    seven different names, and the name UNKNOWN to the values outside
    the enumeration and to no other. *)
Theorem RequestType_String_names rt1 rt2 :
  (0 <= rt1 <= 6 →
   RequestType_String rt1 = RequestType_String rt2 → rt1 = rt2)
  ∧ (RequestType_String rt1 = "UNKNOWN" ↔ ¬ 0 <= rt1 <= 6).
Proof.
  split.
  - intros Hrange.
    assert (Hcases : rt1 = 0 ∨ rt1 = 1 ∨ rt1 = 2 ∨ rt1 = 3
                     ∨ rt1 = 4 ∨ rt1 = 5 ∨ rt1 = 6) by lia.
    unfold RequestType_String at 2.
    unfold ReadRequest, WriteRequest, OpenRequest, CloseRequest,
      FsyncRequest, AllocateRequest, MetadataRequest.
    repeat match goal with
           | |- context [?x =? ?y] => destruct (Z.eqb_spec x y)
           end;
      destruct Hcases as [->|[->|[->|[->|[->|[->| ->]]]]]];
      simpl; intros Heq; try done; try lia.
  - unfold RequestType_String.
    unfold ReadRequest, WriteRequest, OpenRequest, CloseRequest,
      FsyncRequest, AllocateRequest, MetadataRequest.
    repeat match goal with
           | |- context [?x =? ?y] => destruct (Z.eqb_spec x y)
           end; split; intros H; try done; try lia.
Qed.

End Names.

(** ** More of the FUSE layer *)

Section MoreOperations.
Import fuselayer.

Lemma Schedule_steps now dc req delay l1 dc' l2 :
  computeTime dc req = Some (delay, l1) →
  execute now dc req = Some (dc', l2) →
  Schedule now dc req = Some ((delay, dc'), l1 ++ l2).
Proof.
  intros Hc He. unfold Schedule. rewrite Hc. simpl. rewrite He. simpl.
  by rewrite app_nil_r.
Qed.

(** X10. [Release] has no status to fail on: it always schedules the
    CLOSE of its file. Afterwards the file has no dirty bytes and is
    not the last accessed one any more, a last accessed file that is
    another one stays, and the device has been busy for the time of a
    metadata operation. *)
Theorem Release_forgets_the_file sf sched start now wake :
  ∃ sched' sleep log,
    Release sf sched start now wake = Some ((sched', sleep), log)
    ∧ dirtyBytes sched' (path sf) = 0
    ∧ sequentiality sched'
      = (if String.eqb (lastAccessedFile sched) (path sf)
         then ("", 0) else sequentiality sched)
    ∧ busyUntil sched'
      = start + sat64 (Z.max (busyUntil sched) start
                       + MetadataOpTime (deviceConfig sched) - start)
    ∧ sleep
      = dsub (sat64 (Z.max (busyUntil sched) start
                     + MetadataOpTime (deviceConfig sched) - start))
             (Since wake start).
Proof.
  set (req := {| Type_ := CloseRequest; Timestamp := start;
                 Path := path sf; Start := 0; Size := 0 |}).
  pose proof (computeTime_of_requestDuration sched req _ _
                (requestDuration_close sched req eq_refl)) as Hc.
  destruct (execute_close now sched req eq_refl)
    as (sched' & log & He & Hseq & Hw & Hb & _).
  pose proof (Schedule_steps now sched req _ _ _ _ Hc He) as Hs.
  destruct (dirtyBytes_closed sched' (path sf) _ Hw) as [Hzero _].
  eexists sched', _, _. split.
  { unfold Release. fold req. rewrite Hs. simpl. reflexivity. }
  by split_and!.
Qed.



(** What [execute] does with an FSYNC. *)
Lemma Schedule_fsync now dc req :
  Type_ req = FsyncRequest →
  cacheAllocated dc →
  ∃ delay dc' log,
    Schedule now dc req = Some ((delay, dc'), log)
    ∧ sequentiality dc' = sequentiality dc
    ∧ dirtyBytes dc' (Path req) = 0.
Proof.
  intros Hty Hcache.
  destruct (requestDuration_fsync_returns dc req Hty Hcache) as (d & Hd).
  apply computeTime_of_requestDuration in Hd.
  destruct (requestDuration_fsync_returns (afterSpareTime dc req) req Hty)
    as (d' & Hd'); [by apply cacheAllocated_afterSpareTime|].
  apply computeTime_of_requestDuration in Hd'.
  destruct (execute_of_computeTime now dc req _ _ Hd')
    as (dc1 & dc2 & l1 & l3 & _ & Hsame & Ha & He & _ & _).
  rewrite (applyRequest_fsync _ req Hty) in Ha. injection Ha as <- <-.
  pose proof (Schedule_steps now dc req _ _ _ _ Hd He) as Hs.
  eexists _, _, _. split; [exact Hs|]. clear Hs He Hd Hd'.
  match goal with
  | |- context [onWriteBackCache ?x ?f] =>
      destruct (onWriteBackCache_frame x f) as (_ & Hseq & _ & Hw)
  end.
  simpl in Hw. destruct Hsame as [_ Hf Hl _ Hw1].
  destruct (afterSpareTime_frame dc req) as (_ & Hf2 & Hl2 & _).
  split.
  - rewrite Hseq. unfold sequentiality. simpl. congruence.
  - unfold dirtyBytes. rewrite Hw, Hw1.
    destruct (writeBackCache (afterSpareTime dc req)); simpl; [|done].
    unfold writeBackFile. rewrite getUnwrittenBytes_insert.
    by case_decide.
Qed.

(** X12. [Fsync] returns a failure of the underlying fsync at once and
    leaves the scheduler as it was, so that the dirty bytes of the file
    stay in the cache; after a successful one, on a device whose cache
    is there when the fsync strategy needs it, the file has no dirty
    bytes and the sequentiality state is as before. *)
Theorem Fsync_cleans_on_success_only sf sched start now wake :
  (∀ st, st ≠ OK →
     Fsync sf sched start now wake st
     = Some ({| value := tt; status := st;
                schedulerAfter := sched; slept := None |}, []))
  ∧ (cacheAllocated sched →
     ∃ r log,
       Fsync sf sched start now wake OK = Some (r, log)
       ∧ status r = OK
       ∧ is_Some (slept r)
       ∧ dirtyBytes (schedulerAfter r) (path sf) = 0
       ∧ sequentiality (schedulerAfter r) = sequentiality sched).
Proof.
  split.
  - intros st Hst. unfold Fsync. by rewrite (not_OK st Hst).
  - intros Hcache.
    destruct (Schedule_fsync now sched
                {| Type_ := FsyncRequest; Timestamp := start;
                   Path := path sf; Start := 0; Size := 0 |}
                eq_refl Hcache) as (delay & dc' & log & Hs & Hseq & Hd).
    eexists _, _. split.
    { unfold Fsync. simpl. rewrite Hs. simpl. reflexivity. }
    by split_and!.
Qed.

Lemma requestDuration_metadata dc req :
  Type_ req = MetadataRequest →
  requestDuration dc req = Some (MetadataOpTime (deviceConfig dc), []).
Proof. intros Hty. unfold requestDuration. by rewrite Hty. Qed.

(** X13. [Truncate], and with it the metadata operations that differ
    in the underlying call only, returns a failure at once and leaves
    the scheduler as it was; a successful one is charged the time of a
    metadata operation after the device is free, and its request, which
    names no file, leaves the sequentiality state as it was: a metadata
    operation between two reads does not make the second one seek. *)
Theorem Truncate_costs_a_metadata_operation sf sched start now wake :
  (∀ st, st ≠ OK →
     Truncate sf sched start now wake st
     = Some ({| value := tt; status := st;
                schedulerAfter := sched; slept := None |}, []))
  ∧ ∃ r log,
      Truncate sf sched start now wake OK = Some (r, log)
      ∧ status r = OK
      ∧ slept r
        = Some (dsub
                  (sat64 (Z.max (busyUntil sched) start
                          + MetadataOpTime (deviceConfig sched) - start))
                  (Since wake start))
      ∧ sequentiality (schedulerAfter r) = sequentiality sched
      ∧ busyUntil (schedulerAfter r)
        = start + sat64 (Z.max (busyUntil sched) start
                         + MetadataOpTime (deviceConfig sched) - start).
Proof.
  split.
  - intros st Hst. unfold Truncate. by rewrite (not_OK st Hst).
  - set (req := {| Type_ := MetadataRequest; Timestamp := start;
                   Path := ""; Start := 0; Size := 0 |}).
    pose proof (computeTime_of_requestDuration sched req _ _
                  (requestDuration_metadata sched req eq_refl)) as Hc.
    assert (Hc' : computeTime (afterSpareTime sched req) req
                  = computeTime sched req)
      by (apply computeTime_afterSpareTime; by left).
    rewrite Hc in Hc'.
    destruct (execute_of_computeTime now sched req _ _ Hc')
      as (dc1 & sched' & l1 & l3 & _ & _ & _ & He & Hb & _).
    destruct (execute_metadata_or_allocate now sched req)
      as (sched'' & log' & He' & Hsame); [by left|].
    rewrite He in He'. injection He' as <- <-.
    pose proof (Schedule_steps now sched req _ _ _ _ Hc He) as Hs.
    eexists _, _. split.
    { unfold Truncate. simpl. fold req. rewrite Hs. simpl. reflexivity. }
    split_and!; try done. simpl.
    rewrite (sequentiality_sameDevice _ _ Hsame).
    apply (sequentiality_afterSpareTime sched req).
Qed.

End MoreOperations.

(** ** The configurations of [main] *)

Section Configurations.
Import main.

Lemma addConfigs_cases dcs :
  ∀ configs : gmap string DeviceConfig,
    match addConfigs configs dcs with
    | inr merged =>
        NoDup (Name <$> dcs)
        ∧ (∀ dc, dc ∈ dcs →
             configs !! Name dc = None ∧ merged !! Name dc = Some dc)
        ∧ (∀ name dc, configs !! name = Some dc →
             merged !! name = Some dc)
    | inl name =>
        name ∈ Name <$> dcs
        ∧ ¬ (NoDup (Name <$> dcs)
             ∧ ∀ dc, dc ∈ dcs → configs !! Name dc = None)
    end.
Proof.
  induction dcs as [|dc dcs IH]; intros configs; simpl.
  - split; [constructor|]. split; [by intros dc ?%elem_of_nil|done].
  - destruct (configs !! Name dc) as [old|] eqn:Hdc.
    + split; [apply elem_of_cons; by left|].
      intros [_ Hfree]. specialize (Hfree dc (list_elem_of_here _ _)).
      congruence.
    + specialize (IH (<[Name dc := dc]> configs)).
      destruct (addConfigs (<[Name dc := dc]> configs) dcs)
        as [name|merged].
      * destruct IH as [Hin Hnot]. split; [apply elem_of_cons; by right|].
        intros [Hnodup Hfree]. apply Hnot.
        apply NoDup_cons in Hnodup as [Hfresh Hnodup].
        split; [done|]. intros dc' Hdc'.
        apply lookup_insert_None. split.
        -- apply Hfree, elem_of_cons. by right.
        -- intros Heq. apply Hfresh. rewrite Heq.
           by apply list_elem_of_fmap_2.
      * destruct IH as (Hnodup & Hall & Hkeep).
        split_and!.
        -- apply NoDup_cons. split; [|done].
           intros (dc' & Heq & Hdc')%list_elem_of_fmap.
           destruct (Hall dc' Hdc') as [Hnone _].
           rewrite <- Heq in Hnone.
           by rewrite lookup_insert_eq in Hnone.
        -- intros dc' [->|Hdc']%elem_of_cons.
           ++ split; [done|]. apply Hkeep. apply lookup_insert_eq.
           ++ destruct (Hall dc' Hdc') as [Hnone Hsome].
              by apply lookup_insert_None in Hnone as [Hnone _].
        -- intros name dc' Hname. apply Hkeep.
           rewrite lookup_insert_ne; [done|]. congruence.
Qed.

(** X14. The loop of [main] over the configurations of the file
    succeeds exactly when their names differ from one another and from
    the names in the map; the map it then leaves has each of them under
    its name and the entries that were there as before. When it does
    not succeed, the name it ends with is one of the names of the
    file. *)
Theorem addConfigs_refuses_duplicates
    (configs : gmap string DeviceConfig) dcs :
  ((∃ merged, addConfigs configs dcs = inr merged)
   ↔ NoDup (Name <$> dcs)
     ∧ ∀ dc, dc ∈ dcs → configs !! Name dc = None)
  ∧ (∀ merged, addConfigs configs dcs = inr merged →
       (∀ dc, dc ∈ dcs → merged !! Name dc = Some dc)
       ∧ ∀ name dc, configs !! name = Some dc → merged !! name = Some dc)
  ∧ (∀ name, addConfigs configs dcs = inl name → name ∈ Name <$> dcs).
Proof.
  pose proof (addConfigs_cases dcs configs) as Hcases.
  destruct (addConfigs configs dcs) as [name|merged].
  - destruct Hcases as [Hin Hnot]. split_and!.
    + split; [by intros [merged [=]]|]. by intros H%Hnot.
    + by intros merged [=].
    + by intros name' [= <-].
  - destruct Hcases as (Hnodup & Hall & Hkeep). split_and!.
    + split; [|by exists merged]. intros _. split; [done|].
      intros dc Hdc. by destruct (Hall dc Hdc).
    + intros merged' [= <-]. split; [|done].
      intros dc Hdc. by destruct (Hall dc Hdc).
    + by intros name [=].
Qed.

(** X15. The built-in configuration cannot be replaced: whenever
    [main] gets past the loading of the configurations, with or without
    a configuration file, the name of the built-in configuration
    selects the built-in configuration; a file that lists a
    configuration under that name is fatal. *)
Theorem builtin_config_is_kept builtin configFile :
  match loadConfigs builtin configFile with
  | inr configs => selectConfig configs (Name builtin) = inr builtin
  | inl name =>
      ∃ dcs, configFile = Some dcs ∧ name ∈ Name <$> dcs
  end
  ∧ ∀ dcs, Name builtin ∈ Name <$> dcs →
      ∃ name, loadConfigs builtin (Some dcs) = inl name.
Proof.
  split.
  - unfold loadConfigs, selectConfig. destruct configFile as [dcs|].
    + pose proof (addConfigs_cases dcs {[Name builtin := builtin]}) as H.
      destruct (addConfigs _ dcs) as [name|configs].
      * destruct H as [Hin _]. by exists dcs.
      * destruct H as (_ & _ & Hkeep).
        by rewrite (Hkeep (Name builtin) builtin (lookup_singleton_eq _ _)).
    + by rewrite lookup_singleton_eq.
  - intros dcs (dc & Heq & Hdc)%list_elem_of_fmap. unfold loadConfigs.
    pose proof (addConfigs_cases dcs {[Name builtin := builtin]}) as H.
    destruct (addConfigs _ dcs) as [name|configs]; [by exists name|].
    destruct H as (_ & Hall & _). destruct (Hall dc Hdc) as [Hnone _].
    rewrite <- Heq in Hnone. by rewrite lookup_singleton_eq in Hnone.
Qed.

End Configurations.

Section AfterClose.

(** X16. After the CLOSE of a file with a name, every request for that
    file seeks, also one that continues where the last access to the
    file ended: the CLOSE has cleared the last accessed file if it was
    this one, and otherwise another file is the last accessed one. *)
Theorem close_makes_the_next_access_seek now dc req next :
  Type_ req = CloseRequest →
  Path req ≠ "" →
  Path next = Path req →
  ∃ dc' log,
    execute now dc req = Some (dc', log)
    ∧ lastAccessedFile dc' ≠ Path req
    ∧ computeSeekTime dc' next = SeekTime (deviceConfig dc).
Proof.
  intros Hty Hpath Hnext.
  destruct (execute_close now dc req Hty)
    as (dc' & log & He & Hseq & _ & _ & Hcfg).
  exists dc', log. split; [done|].
  assert (Hlast : lastAccessedFile dc' ≠ Path req).
  { destruct (String.eqb_spec (lastAccessedFile dc) (Path req));
      injection Hseq as Hl _; rewrite Hl; [|done].
    intros Heq. by apply Hpath. }
  split; [done|]. unfold computeSeekTime. rewrite Hnext, Hcfg.
  by destruct (String.eqb_spec (lastAccessedFile dc') (Path req)).
Qed.

End AfterClose.

(** ** The further properties on the sample devices *)

Section MoreSamples.
Import samples fuselayer.

(** A device with the write-back cache that has read 1 MiB. *)
Lemma reachable_never_panics_witness :
  ∃ dc,
    reachable (config WriteBackCachedFsync SimulateWrite) dc
    ∧ deviceConfig dc = config WriteBackCachedFsync SimulateWrite
    ∧ is_Some (writeBackCache dc)
    ∧ ∃ dc' log,
        execute 0 dc (request FsyncRequest "/a" 0 0 0) = Some (dc', log).
Proof.
  destruct (execute_read 0 (fresh WriteBackCachedFsync SimulateWrite)
              (request ReadRequest "/a" 0 MiB 0) eq_refl)
    as (dc & log & He & _).
  assert (Hreach : reachable (config WriteBackCachedFsync SimulateWrite) dc).
  { apply (reachable_execute _ 0
             (fresh WriteBackCachedFsync SimulateWrite)
             (request ReadRequest "/a" 0 MiB 0) dc log);
      [apply reachable_new|done|exact He]. }
  destruct (reachable_never_panics _ dc Hreach) as (Hcfg & Hiff & Hall).
  exists dc. split; [exact Hreach|]. split; [exact Hcfg|].
  split; [by apply Hiff|].
  apply (Hall 0 (request FsyncRequest "/a" 0 0 0)).
Defined.

(** Two devices with different counters and window starts. *)
Lemma statistics_do_not_schedule_witness :
  sameDevice
    (setWindow (busy NoFsync SimulateWrite 10 4096 0) 7 8 1 2 55)
    (busy NoFsync SimulateWrite 10 4096 0)
  ∧ ∃ dc1' dc2' log1 log2,
      execute 0 (setWindow (busy NoFsync SimulateWrite 10 4096 0)
                   7 8 1 2 55)
        (request ReadRequest "/a" 4096 4096 5) = Some (dc1', log1)
      ∧ execute 99 (busy NoFsync SimulateWrite 10 4096 0)
          (request ReadRequest "/a" 4096 4096 5) = Some (dc2', log2)
      ∧ sameDevice dc1' dc2'.
Proof.
  assert (Hsame : sameDevice
            (setWindow (busy NoFsync SimulateWrite 10 4096 0) 7 8 1 2 55)
            (busy NoFsync SimulateWrite 10 4096 0)) by (by split).
  split; [exact Hsame|].
  destruct (execute_read 0
              (setWindow (busy NoFsync SimulateWrite 10 4096 0) 7 8 1 2 55)
              (request ReadRequest "/a" 4096 4096 5) eq_refl)
    as (dc1' & log1 & He & _).
  destruct (statistics_do_not_schedule 0 99 _ _ _ dc1' log1 Hsame He)
    as (_ & dc2' & log2 & He2 & Hsame').
  by exists dc1', dc2', log1, log2.
Defined.

(** A read 31 seconds after the window began. *)
Lemma statistics_window_witness :
  ∃ dc' log,
    execute 31000000000 (busy NoFsync SimulateWrite 10 4096 0)
      (request ReadRequest "/a" 4096 4096 5) = Some (dc', log)
    ∧ statistics dc' = (0, 0, 0, 0, 31000000000)
    ∧ List.filter isIOSpeed log = [IOSpeed 4096 1 0 0 31000000000].
Proof.
  destruct (execute_read 31000000000 (busy NoFsync SimulateWrite 10 4096 0)
              (request ReadRequest "/a" 4096 4096 5) eq_refl)
    as (dc' & log & He & _).
  exists dc', log. split; [exact He|].
  exact (statistics_window 31000000000
           (busy NoFsync SimulateWrite 10 4096 0)
           (request ReadRequest "/a" 4096 4096 5) dc' log He).
Defined.

(** Scenario 4 of section 8. *)
Lemma busyUntil_is_timestamp_plus_delay_witness :
  (Type_ (request ReadRequest "/b" 0 MiB 206000000) ≠ FsyncRequest
   ∨ Timestamp (request ReadRequest "/b" 0 MiB 206000000)
     <= busyUntil (busy NoFsync SimulateWrite 210390625 4096 0))
  ∧ computeTime (busy NoFsync SimulateWrite 210390625 4096 0)
      (request ReadRequest "/b" 0 MiB 206000000) = Some (109390625, [])
  ∧ ∃ dc' log,
      execute 0 (busy NoFsync SimulateWrite 210390625 4096 0)
        (request ReadRequest "/b" 0 MiB 206000000) = Some (dc', log)
      ∧ busyUntil dc' = 315390625.
Proof.
  assert (Hcase :
    Type_ (request ReadRequest "/b" 0 MiB 206000000) ≠ FsyncRequest
    ∨ Timestamp (request ReadRequest "/b" 0 MiB 206000000)
      <= busyUntil (busy NoFsync SimulateWrite 210390625 4096 0))
    by (by left).
  assert (Hc : computeTime (busy NoFsync SimulateWrite 210390625 4096 0)
      (request ReadRequest "/b" 0 MiB 206000000) = Some (109390625, []))
    by (by vm_compute).
  split; [exact Hcase|]. split; [exact Hc|].
  exact (busyUntil_is_timestamp_plus_delay 0 _ _ _ _ Hcase Hc).
Defined.

Lemma metadata_and_allocate_keep_the_files_witness :
  (Type_ (request AllocateRequest "" 0 MiB 5) = MetadataRequest
   ∨ Type_ (request AllocateRequest "" 0 MiB 5) = AllocateRequest)
  ∧ ∃ dc' log,
      execute 0 (busy WriteBackCachedFsync FastWrite 10 4096 512)
        (request AllocateRequest "" 0 MiB 5) = Some (dc', log)
      ∧ sequentiality dc' = ("/a", 4096)
      ∧ writeBackCache dc'
        = writeBackCache (busy WriteBackCachedFsync FastWrite 10 4096 512).
Proof.
  split; [by right|].
  destruct (metadata_and_allocate_keep_the_files 0
              (busy WriteBackCachedFsync FastWrite 10 4096 512)
              (request AllocateRequest "" 0 MiB 5))
    as (dc' & log & He & Hseq & _ & _ & Hw); [by right|].
  exists dc', log. split; [exact He|]. split; [exact Hseq|].
  by apply Hw.
Defined.

Lemma fsync_cleans_its_file_only_witness :
  Type_ (request FsyncRequest "/a" 0 0 5) = FsyncRequest
  ∧ cacheAllocated (busy WriteBackCachedFsync FastWrite 10 4096 512)
  ∧ ∃ dc' log,
      execute 0 (busy WriteBackCachedFsync FastWrite 10 4096 512)
        (request FsyncRequest "/a" 0 0 5) = Some (dc', log)
      ∧ sequentiality dc' = ("/a", 4096)
      ∧ dirtyBytes dc' "/a" = 0
      ∧ dirtyBytes dc' "/b" = 512.
Proof.
  split; [done|]. split; [apply busy_cacheAllocated|].
  destruct (fsync_cleans_its_file_only 0
              (busy WriteBackCachedFsync FastWrite 10 4096 512)
              (request FsyncRequest "/a" 0 0 5) eq_refl
              (busy_cacheAllocated _ _ _ _ _))
    as (dc' & log & He & Hseq & Hzero & Hother).
  exists dc', log. split; [exact He|]. split; [exact Hseq|].
  split; [exact Hzero|]. by rewrite (Hother "/b").
Defined.

(** Three chunks of a file, read from its start. *)
Lemma consecutive_reads_seek_once_witness :
  0 < SeekWindow (deviceConfig (fresh NoFsync FastWrite))
  ∧ Forall (λ chunk : Time * Time * NumBytes, 0 <= chunk.2)
      [(0, 0, MiB); (0, 105000000, MiB); (0, 400000000, 4096)]
  ∧ ∃ seeks,
      seeksOfReads (fresh NoFsync FastWrite) "/a" 0
        [(0, 0, MiB); (0, 105000000, MiB); (0, 400000000, 4096)]
      = Some seeks
      ∧ length seeks = 3%nat
      ∧ Forall (λ seek, seek = 0) (tail seeks).
Proof.
  assert (Hsizes : Forall (λ chunk : Time * Time * NumBytes, 0 <= chunk.2)
      [(0, 0, MiB); (0, 105000000, MiB); (0, 400000000, 4096)])
    by (by repeat constructor).
  split; [done|]. split; [exact Hsizes|].
  apply (consecutive_reads_seek_once (fresh NoFsync FastWrite) "/a" 0
           [(0, 0, MiB); (0, 105000000, MiB); (0, 400000000, 4096)]);
    [done|done|exact Hsizes|by vm_compute].
Defined.

(** Scenario 1 of section 8. *)
Lemma first_request_waits_for_nothing_witness :
  0 <= Timestamp (request ReadRequest "/a" 0 MiB 0)
  ∧ fits64 105000000
  ∧ computeTime (newDeviceContext 7 (config NoFsync FastWrite))
      (request ReadRequest "/a" 0 MiB 0) = Some (105000000, []).
Proof.
  assert (Hfit : fits64 105000000) by (by vm_compute).
  split; [done|]. split; [exact Hfit|].
  apply (first_request_waits_for_nothing 7 (config NoFsync FastWrite)
           (request ReadRequest "/a" 0 MiB 0) 105000000 []);
    [done|exact Hfit|by vm_compute].
Defined.


Lemma close_makes_the_next_access_seek_witness :
  Type_ (request CloseRequest "/a" 0 0 5) = CloseRequest
  ∧ Path (request CloseRequest "/a" 0 0 5) ≠ ""
  ∧ computeSeekTime (busy NoFsync FastWrite 0 4096 0)
      (request ReadRequest "/a" 4096 4096 6) = 0
  ∧ ∃ dc' log,
      execute 0 (busy NoFsync FastWrite 0 4096 0)
        (request CloseRequest "/a" 0 0 5) = Some (dc', log)
      ∧ computeSeekTime dc' (request ReadRequest "/a" 4096 4096 6)
        = 5000000.
Proof.
  split; [done|]. split; [done|]. split; [by vm_compute|].
  destruct (close_makes_the_next_access_seek 0
              (busy NoFsync FastWrite 0 4096 0)
              (request CloseRequest "/a" 0 0 5)
              (request ReadRequest "/a" 4096 4096 6))
    as (dc' & log & He & _ & Hseek); [done|done|done|].
  by exists dc', log.
Defined.

End MoreSamples.
